(** * Tasks API (Gin + MongoDB): a shallow embedding of [main.go]

    The program is a five-endpoint REST handler over one MongoDB collection.
    The embedding follows the Go file top to bottom:

    - [primitive]: the driver's 12-byte [ObjectID], as a 96-bit number, with
      [ObjectIDFromHex] and [Hex];
    - [bson]: flat BSON documents ([bson.M]) as finite maps from field names
      to values;
    - [Task] and its two struct-tag driven encodings (BSON with [omitempty],
      JSON);
    - [mongo]: the collection as a finite map keyed by [_id], with the
      driver calls the handlers make;
    - [gin]: the response writer, whose header is committed once, and the
      router with its trailing-slash redirect;
    - the handlers [CreateTask], [GetTasks], [GetSpecificTask], [UpdateTask],
      [DeleteTask], the route table [SetupRoutes], and the start-up sequence
      [SetUpDatabase] / [main].

    Strings are Go strings, that is byte sequences: [String.length] is Go's
    [len]. *)

From Stdlib Require Import ZArith NArith String Ascii.
From stdpp Require Import base decidable option list gmap strings fin_maps.

Local Open Scope Z_scope.

(* ===================================================================== *)
(** ** Go errors *)
(* ===================================================================== *)

(** The [error] values that can reach a handler.  [errorString] is what
    [errors.New] and [fmt.Errorf] build; the others are the sentinel and
    typed errors of [encoding/hex], the BSON library and the driver. *)
Inductive error :=
  | errorString (msg : string)
  | ErrInvalidHex
  | InvalidByteError (b : ascii)
  | ErrNoDocuments
  | DuplicateKeyError
  | ImmutableFieldError
  | DecodeError (field : string).

Definition upperhex : string := "0123456789ABCDEF".
Definition lowerhex : string := "0123456789abcdef".

Definition digitOf (table : string) (n : N) : ascii :=
  match String.get (N.to_nat n) table with
  | Some c => c
  | None => "0"%char
  end.

(** [strconv.IsPrint] on a rune below 256: the ASCII range from space to
    [~], and Latin-1 from [0xA1] on except the soft hyphen [0xAD]. *)
Definition IsPrint (r : N) : bool :=
  (((32 <=? r) && (r <=? 126)) || ((161 <=? r) && (r <=? 255) && negb (r =? 173)))%N.

(** [utf8.EncodeRune] on a rune below 256: itself below 128, two bytes from
    there on. *)
Definition EncodeRune (r : N) : string :=
  if (r <? 128)%N then String (ascii_of_N r) ""
  else String (ascii_of_N (192 + r / 64)) (String (ascii_of_N (128 + r mod 64)) "").

(** [err.Error()].  [InvalidByteError] formats its byte, as a rune, with
    [%#U]: [U+] and four upper-case hex digits, then the rune itself between
    single quotes when it is printable.  The texts of the driver's write and
    decode errors are abridged to their distinguishing part. *)
Definition Error (e : error) : string :=
  match e with
  | errorString msg => msg
  | ErrInvalidHex => "the provided hex string is not a valid ObjectID"
  | InvalidByteError b =>
      let n := N_of_ascii b in
      "encoding/hex: invalid byte: U+00"
        +:+ String (digitOf upperhex (n / 16)) (String (digitOf upperhex (n mod 16)) "")
        +:+ (if IsPrint n then " '" +:+ EncodeRune n +:+ "'" else "")
  | ErrNoDocuments => "mongo: no documents in result"
  | DuplicateKeyError => "write exception: write errors: [E11000 duplicate key error]"
  | ImmutableFieldError =>
      "write exception: write errors: [Performing an update on the path '_id' would modify the immutable field '_id']"
  | DecodeError field => "error decoding key " +:+ field
  end.

(* ===================================================================== *)
(** ** [primitive.ObjectID] *)
(* ===================================================================== *)

Module primitive.

(** [type ObjectID [12]byte], read as a big-endian 96-bit number. *)
Definition ObjectID := N.

Definition NilObjectID : ObjectID := 0%N.

Definition IsZero (id : ObjectID) : bool := (id =? NilObjectID)%N.

(** [encoding/hex]'s digit table: [0-9], [a-f] and [A-F]. *)
Definition fromHexChar (c : ascii) : option N :=
  let n := N_of_ascii c in
  if ((48 <=? n) && (n <=? 57))%N then Some (n - 48)%N
  else if ((97 <=? n) && (n <=? 102))%N then Some (n - 97 + 10)%N
  else if ((65 <=? n) && (n <=? 70))%N then Some (n - 65 + 10)%N
  else None.

(** [hex.Decode]: the first byte that is no hex digit is reported. *)
Fixpoint decodeHex (s : string) (acc : N) : error + N :=
  match s with
  | EmptyString => inr acc
  | String c s' =>
      match fromHexChar c with
      | Some d => decodeHex s' (acc * 16 + d)%N
      | None => inl (InvalidByteError c)
      end
  end.

(** [ObjectIDFromHex]: exactly 24 hex digits. *)
Definition ObjectIDFromHex (s : string) : error + ObjectID :=
  if decide (String.length s = 24%nat) then decodeHex s 0%N
  else inl ErrInvalidHex.

Fixpoint encodeHex (k : nat) (v : N) (acc : string) : string :=
  match k with
  | O => acc
  | S k' => encodeHex k' (v / 16)%N (String (digitOf lowerhex (v mod 16)%N) acc)
  end.

(** [id.Hex()], which is also how an [ObjectID] is rendered in JSON. *)
Definition Hex (id : ObjectID) : string := encodeHex 24 id "".

End primitive.
Import primitive.

(* ===================================================================== *)
(** ** BSON documents *)
(* ===================================================================== *)

Module bson.

(** The BSON values this program stores: an [ObjectID], a string, a bool. *)
Inductive Value :=
  | VObjectID (id : ObjectID)
  | VString (s : string)
  | VBool (b : bool).

#[export] Instance Value_eq_dec : EqDecision Value.
Proof. solve_decision. Defined.

(** [bson.M], a document: field name to value. *)
Abbreviation M := (gmap string Value).

End bson.
Import bson.

(* ===================================================================== *)
(** ** [type Task struct] *)
(* ===================================================================== *)

(** <<
    ID        primitive.ObjectID `json:"id" bson:"_id,omitempty"`
    Title     string             `json:"title" bson:"title"`
    Completed bool               `json:"completed" bson:"completed,omitempty"`
    >> *)
Record Task := mkTask {
  ID : ObjectID;
  Title : string;
  Completed : bool
}.

#[export] Instance Task_eq_dec : EqDecision Task.
Proof. solve_decision. Defined.

(** The zero value a [var task Task] starts from. *)
Definition zeroTask : Task := mkTask NilObjectID "" false.

Definition setCompleted (b : bool) (t : Task) : Task :=
  mkTask (ID t) (Title t) b.

(** A struct field tagged [omitempty] is left out of the document when it
    holds its zero value. *)
Definition omitempty (isZero : bool) (key : string) (v : Value) (m : M) : M :=
  if isZero then m else <[key := v]> m.

(** [bson.Marshal] of a [Task], following the [bson] tags: [_id] is left out
    for the zero id, [title] is always written, [completed] is left out when
    it is [false]. *)
Definition Task_MarshalBSON (t : Task) : M :=
  omitempty (IsZero (ID t)) "_id" (VObjectID (ID t))
    (<["title" := VString (Title t)]>
       (omitempty (negb (Completed t)) "completed" (VBool (Completed t)) ∅)).

(** [bson.Unmarshal] into a zero [Task]: a missing field keeps its zero value,
    a field of another type is an error, other fields are ignored. *)
Definition Task_UnmarshalBSON (m : M) : error + Task :=
  match m !! "_id" with
  | Some (VString _) | Some (VBool _) => inl (DecodeError "_id")
  | oid =>
      match m !! "title" with
      | Some (VObjectID _) | Some (VBool _) => inl (DecodeError "title")
      | otitle =>
          match m !! "completed" with
          | Some (VObjectID _) | Some (VString _) => inl (DecodeError "completed")
          | ocompleted =>
              inr (mkTask
                     (match oid with Some (VObjectID i) => i | _ => NilObjectID end)
                     (match otitle with Some (VString s) => s | _ => "" end)
                     (match ocompleted with Some (VBool b) => b | _ => false end))
          end
      end
  end.

(** *** JSON rendering *)

Inductive JSONValue :=
  | JString (s : string)
  | JBool (b : bool).

#[export] Instance JSONValue_eq_dec : EqDecision JSONValue.
Proof. solve_decision. Defined.

(** A JSON object, as the set of its members. *)
Abbreviation JSONObject := (gmap string JSONValue).

(** [json.Marshal] of a [Task], following the [json] tags: always the three
    members [id], [title], [completed]. *)
Definition Task_MarshalJSON (t : Task) : JSONObject :=
  <["id" := JString (Hex (ID t))]>
    (<["title" := JString (Title t)]>
       (<["completed" := JBool (Completed t)]> ∅)).

Definition Value_MarshalJSON (v : Value) : JSONValue :=
  match v with
  | VObjectID id => JString (Hex id)
  | VString s => JString s
  | VBool b => JBool b
  end.

(** [json.Marshal] of a [bson.M]: the document's own field names. *)
Definition M_MarshalJSON (m : M) : JSONObject := Value_MarshalJSON <$> m.

(** The Task JSON shape [{id: string, title: string, completed: bool}]. *)
Definition TaskShape (o : JSONObject) : Prop :=
  ∃ i t c, o = <["id" := JString i]>
                 (<["title" := JString t]> (<["completed" := JBool c]> ∅)).

(* ===================================================================== *)
(** ** The MongoDB collection and the driver calls *)
(* ===================================================================== *)

Module mongo.

(** The collection [taskdb.tasks]: documents keyed by their unique [_id];
    the document stored under a key holds the other fields. *)
Abbreviation Collection := (gmap ObjectID M).

(** What the outside world contributes to the driver calls of one request:
    [fault] is the error of a call on the collection that fails for a reason
    outside the collection (server unreachable, timeout), [NewObjectID] the
    id the driver generates for a document inserted without [_id], and
    [cursorFault] the error of draining a cursor with [cursor.All], if it
    fails. *)
Record Env := mkEnv {
  fault : option error;
  NewObjectID : ObjectID;
  cursorFault : option error
}.

Record UpdateResult := { MatchedCount : Z; ModifiedCount : Z }.
Record DeleteResult := { DeletedCount : Z }.

(** A stored document as the driver returns it, [_id] included. *)
Definition document (id : ObjectID) (d : M) : M := <["_id" := VObjectID id]> d.

(** [InsertOne]: a document without [_id] gets a generated one; an [_id]
    already in the collection is a duplicate-key write error.  (The documents
    inserted here are marshalled [Task]s, whose [_id] is an [ObjectID].) *)
Definition InsertOne (e : Env) (doc : M) (coll : Collection)
  : error + (ObjectID * Collection) :=
  match fault e with
  | Some err => inl err
  | None =>
      let id := match doc !! "_id" with
                | Some (VObjectID i) => i
                | _ => NewObjectID e
                end in
      match coll !! id with
      | Some _ => inl DuplicateKeyError
      | None => inr (id, <[id := delete "_id" doc]> coll)
      end
  end.

(** [Find] with the empty filter: a cursor over every document, here the
    documents it will yield. *)
Definition Find (e : Env) (coll : Collection) : error + list M :=
  match fault e with
  | Some err => inl err
  | None => inr ((λ kd, document kd.1 kd.2) <$> map_to_list coll)
  end.

(** [cursor.All(ctx, &tasks)]: the documents of the cursor, or the error of
    fetching them. *)
Definition All (e : Env) (cursor : list M) : error + list M :=
  match cursorFault e with
  | Some err => inl err
  | None => inr cursor
  end.

(** [FindOne] with filter [{"_id": id}]: the document, or
    [ErrNoDocuments]. *)
Definition FindOne (e : Env) (id : ObjectID) (coll : Collection) : error + M :=
  match fault e with
  | Some err => inl err
  | None =>
      match coll !! id with
      | Some d => inr (document id d)
      | None => inl ErrNoDocuments
      end
  end.

(** [UpdateOne] with filter [{"_id": id}] and update [{"$set": upd}], no
    upsert: the fields of [upd] replace those of the matched document; a
    [$set] that would change [_id] is rejected by the server. *)
Definition UpdateOne (e : Env) (id : ObjectID) (upd : M) (coll : Collection)
  : error + (UpdateResult * Collection) :=
  match fault e with
  | Some err => inl err
  | None =>
      match coll !! id with
      | None => inr ({| MatchedCount := 0; ModifiedCount := 0 |}, coll)
      | Some d =>
          if decide (upd !! "_id" = None ∨ upd !! "_id" = Some (VObjectID id))
          then
            let d' := delete "_id" upd ∪ d in
            inr ({| MatchedCount := 1;
                    ModifiedCount := if decide (d' = d) then 0 else 1 |},
                 <[id := d']> coll)
          else inl ImmutableFieldError
      end
  end.

(** [DeleteOne] with filter [{"_id": id}]. *)
Definition DeleteOne (e : Env) (id : ObjectID) (coll : Collection)
  : error + (DeleteResult * Collection) :=
  match fault e with
  | Some err => inl err
  | None =>
      match coll !! id with
      | None => inr ({| DeletedCount := 0 |}, coll)
      | Some _ => inr ({| DeletedCount := 1 |}, delete id coll)
      end
  end.

(** [SingleResult.Decode(&task)]: the error of the query if it had one,
    else the document decoded into a [Task]. *)
Definition Decode (r : error + M) : error + Task :=
  match r with
  | inl err => inl err
  | inr doc => Task_UnmarshalBSON doc
  end.

(** The driver calls a handler can issue, for the call log. *)
Inductive Call :=
  | CallInsertOne (doc : M)
  | CallFind
  | CallCursorAll
  | CallFindOne (id : ObjectID)
  | CallUpdateOne (id : ObjectID) (upd : M)
  | CallDeleteOne (id : ObjectID).

End mongo.
Import mongo.

(* ===================================================================== *)
(** ** Gin: request context and response writer *)
(* ===================================================================== *)

Module http.
Definition StatusOK : Z := 200.
Definition StatusCreated : Z := 201.
Definition StatusBadRequest : Z := 400.
Definition StatusNotFound : Z := 404.
Definition StatusUnprocessableEntity : Z := 422.
Definition StatusInternalServerError : Z := 500.
End http.

Module gin.

(** The values this program puts in a [gin.H]: a string, a [Task], or the
    [[]bson.M] of the list endpoint. *)
Inductive Any :=
  | AString (s : string)
  | ATask (t : Task)
  | ADocs (docs : list M).

(** [gin.H], written as the literal is: key and value, in order. *)
Definition H := list (string * Any).

Inductive Payload :=
  | PJSON (h : H)
  | PString (s : string)
  | PRedirect (location : list string).

(** Gin's [responseWriter]: [Status] starts at 200; once the header is
    [Written] the status no longer changes, so at the end of a handler
    [Status] is the status the client receives. *)
Record ResponseWriter := mkWriter {
  Status : Z;
  Written : bool;
  Body : list Payload
}.

Definition newWriter : ResponseWriter := mkWriter 200 false [].

(** [w.WriteHeader(code)]: records the status, unless the header already
    went out; Gin then only logs "Headers were already written. Wanted to
    override status code ..." and the client keeps the status it was sent. *)
Definition WriteHeader (code : Z) (w : ResponseWriter) : ResponseWriter :=
  if decide (0 < code ∧ Status w ≠ code)
  then if Written w then w else mkWriter code (Written w) (Body w)
  else w.

(** [w.WriteHeaderNow()]: commits the header. *)
Definition WriteHeaderNow (w : ResponseWriter) : ResponseWriter :=
  mkWriter (Status w) true (Body w).

(** [w.Write(data)]: commits the header, then appends to the body. *)
Definition Write (p : Payload) (w : ResponseWriter) : ResponseWriter :=
  let w := WriteHeaderNow w in
  mkWriter (Status w) (Written w) (Body w ++ [p]).

(** [c.Render(code, r)], behind [c.JSON] and [c.String] (all the status
    codes used here allow a body). *)
Definition Render (code : Z) (p : Payload) (w : ResponseWriter) : ResponseWriter :=
  Write p (WriteHeader code w).

(** [c.AbortWithStatus(code)]: sets the status and sends the header at
    once. *)
Definition AbortWithStatus (code : Z) (w : ResponseWriter) : ResponseWriter :=
  WriteHeaderNow (WriteHeader code w).

(** The request side of a [gin.Context]: the path parameters, and what
    decoding the body as JSON into a [Task] gives. *)
Record Context := mkContext {
  Params : gmap string string;
  Bound : error + Task
}.

(** [c.Param(key)]: the empty string when there is no such parameter. *)
Definition Param (c : Context) (key : string) : string :=
  default "" (Params c !! key).

End gin.
Import gin.

(* ===================================================================== *)
(** ** Handlers *)
(* ===================================================================== *)

(** What a handler acts on: the collection behind the global [Client], the
    log of driver calls, and the response writer of its context. *)
Record State := mkState {
  tasks : Collection;
  calls : list Call;
  writer : ResponseWriter
}.

Definition Handler (A : Type) : Type := State → A * State.

Definition ret {A} (a : A) : Handler A := λ s, (a, s).

Definition bind {A B} (m : Handler A) (k : A → Handler B) : Handler B :=
  λ s, let '(a, s') := m s in k a s'.

Notation "'do' x <- m ; k" := (bind m (λ x, k))
  (at level 10, x name, m at level 100, k at level 200, only parsing).

Definition onWriter (f : ResponseWriter → ResponseWriter) : Handler unit :=
  λ s, (tt, mkState (tasks s) (calls s) (f (writer s))).

(** One driver call: logged, and run against the collection; the collection
    changes only when the call succeeds. *)
Definition driver {A} (call : Call) (op : Collection → error + (A * Collection))
  : Handler (error + A) :=
  λ s,
    let log := calls s ++ [call] in
    match op (tasks s) with
    | inl err => (inl err, mkState (tasks s) log (writer s))
    | inr (a, coll) => (inr a, mkState coll log (writer s))
    end.

Definition readonly {A} (op : Collection → error + A) (coll : Collection)
  : error + (A * Collection) :=
  match op coll with
  | inl err => inl err
  | inr a => inr (a, coll)
  end.

(** [c.JSON(code, obj)] and [c.String(code, text)]. *)
Definition JSON (code : Z) (obj : H) : Handler unit := onWriter (Render code (PJSON obj)).
Definition String_ (code : Z) (text : string) : Handler unit :=
  onWriter (Render code (PString text)).

(** [c.BindJSON(&task)], that is [c.MustBindWith(&task, binding.JSON)], of
    which Gin documents: "It will abort the request with HTTP 400 if any
    error occurs."  When decoding fails, [c.AbortWithError(400, err)] has sent
    the header with status 400 before the error comes back to the handler. *)
Definition BindJSON (c : Context) : Handler (error + Task) :=
  match Bound c with
  | inl err => do _ <- onWriter (AbortWithStatus http.StatusBadRequest); ret (inl err)
  | inr task => ret (inr task)
  end.

(** <<
    func throwError(status int, err error, c *gin.Context)
    >> *)
Definition throwError (status : Z) (err : error) : Handler unit :=
  let code := status in
  let code := if decide (code = 0) then http.StatusInternalServerError else code in
  JSON code [("error", AString (Error err))].

(** <<
    func CreateTask(c *gin.Context)
    >> *)
Definition CreateTask (e : Env) (c : Context) : Handler unit :=
  do bound <- BindJSON c;
  match bound with
  | inl _ => throwError http.StatusBadRequest (errorString "invalid json")
  | inr task =>
      let title := Title task in
      if decide (title = "") then
        JSON http.StatusUnprocessableEntity [("message", AString "Title cannot be empty")]
      else if decide (String.length title < 5)%nat then
        JSON http.StatusUnprocessableEntity
          [("message", AString "Title length must be at least 5")]
      else
        let task := setCompleted false task in
        do res <- driver (CallInsertOne (Task_MarshalBSON task))
                    (InsertOne e (Task_MarshalBSON task));
        match res with
        | inl err => throwError http.StatusInternalServerError err
        | inr _ =>
            JSON 201 [("message", AString "Task created"); ("task", ATask task)]
        end
  end.

(** <<
    func GetTasks(c *gin.Context)
    >> *)
Definition GetTasks (e : Env) (c : Context) : Handler unit :=
  do res <- driver CallFind (readonly (Find e));
  match res with
  | inl err => throwError http.StatusInternalServerError err
  | inr cursor =>
      do all <- driver CallCursorAll (readonly (λ _, All e cursor));
      match all with
      | inl err => throwError http.StatusInternalServerError err
      | inr docs => JSON 200 [("tasks", ADocs docs)]
      end
  end.

(** <<
    func GetSpecificTask(c *gin.Context)
    >> *)
Definition GetSpecificTask (e : Env) (c : Context) : Handler unit :=
  let id := Param c "id" in
  match ObjectIDFromHex id with
  | inl err => throwError http.StatusBadRequest err
  | inr objectID =>
      do found <- driver (CallFindOne objectID) (readonly (FindOne e objectID));
      match Decode found with
      | inl err => throwError http.StatusInternalServerError err
      | inr task => JSON 200 [("task", ATask task)]
      end
  end.

(** <<
    func UpdateTask(c *gin.Context)
    >> *)
Definition UpdateTask (e : Env) (c : Context) : Handler unit :=
  let id := Param c "id" in
  match ObjectIDFromHex id with
  | inl err => throwError http.StatusBadRequest err
  | inr objectID =>
      do bound <- BindJSON c;
      match bound with
      | inl err => throwError http.StatusInternalServerError err
      | inr task =>
          if decide (Title task = "") then
            JSON http.StatusUnprocessableEntity
              [("message", AString "Title cannot be empty")]
          else if decide (String.length (Title task) < 5)%nat then
            JSON http.StatusUnprocessableEntity
              [("message", AString "Title length must be at least 5")]
          else
            do res <- driver (CallUpdateOne objectID (Task_MarshalBSON task))
                        (UpdateOne e objectID (Task_MarshalBSON task));
            match res with
            | inl err => throwError http.StatusInternalServerError err
            | inr r =>
                if decide (MatchedCount r = 0) then
                  JSON http.StatusNotFound [("message", AString "Task not found")]
                else JSON 200 [("message", AString "Task updated")]
            end
      end
  end.

(** <<
    func DeleteTask(c *gin.Context)
    >> *)
Definition DeleteTask (e : Env) (c : Context) : Handler unit :=
  let id := Param c "id" in
  match ObjectIDFromHex id with
  | inl err => throwError http.StatusBadRequest err
  | inr objectID =>
      do res <- driver (CallDeleteOne objectID) (DeleteOne e objectID);
      match res with
      | inl err => throwError http.StatusInternalServerError err
      | inr r =>
          if decide (DeletedCount r = 0) then
            JSON http.StatusNotFound [("message", AString "Task not found")]
          else JSON 200 [("message", AString "Task deleted")]
      end
  end.

(* ===================================================================== *)
(** ** Routing *)
(* ===================================================================== *)

Inductive Method := GET | POST | PUT | DELETE.

#[export] Instance Method_eq_dec : EqDecision Method.
Proof. solve_decision. Defined.

(** An HTTP request as the router sees it: method, path, and the outcome of
    decoding its body into a [Task].  The path is given without its leading
    slash and split at the slashes, the root path being the empty list: [/tasks]
    is [["tasks"]], and [/tasks/], with a trailing slash, is [["tasks"; ""]]. *)
Record Request := mkRequest {
  method : Method;
  path : list string;
  body : error + Task
}.

Definition HandlerFunc : Type := Env → Context → Handler unit.

(** <<
    func SetupRoutes()
    >>
    as the table it installs: the handler of a method and path, with the path
    parameters.  A [:id] segment matches any non-empty segment. *)
Definition SetupRoutes (m : Method) (p : list string)
  : option (HandlerFunc * gmap string string) :=
  match m, p with
  | GET, [] => Some (λ _ _, String_ 200 "hello", ∅)
  | POST, [seg] =>
      if decide (seg = "tasks") then Some (CreateTask, ∅) else None
  | GET, [seg] =>
      if decide (seg = "tasks") then Some (GetTasks, ∅) else None
  | GET, [seg; id] =>
      if decide (seg = "tasks" ∧ id ≠ "")
      then Some (GetSpecificTask, {["id" := id]}) else None
  | PUT, [seg; id] =>
      if decide (seg = "tasks" ∧ id ≠ "")
      then Some (UpdateTask, {["id" := id]}) else None
  | DELETE, [seg; id] =>
      if decide (seg = "tasks" ∧ id ≠ "")
      then Some (DeleteTask, {["id" := id]}) else None
  | _, _ => None
  end.

(** What outlives a request: the collection and the log of driver calls. *)
Record World := mkWorld {
  collection : Collection;
  driverLog : list Call
}.

Definition emptyWorld : World := mkWorld ∅ [].

(** [gin.Default()] keeps [RedirectTrailingSlash] on: a path no route of the
    method matches, which the route tree matches up to one more slash at its
    end, is redirected to the path without that slash.  With the routes of
    [SetupRoutes] these are [/tasks/] for GET and POST, [/tasks/:id/] for
    GET, PUT and DELETE ([:id] empty or not), and [//] for GET.  The result
    is the path redirected to. *)
Definition redirectTrailingSlash (m : Method) (p : list string) : option (list string) :=
  match m, p with
  | GET, [seg; last] =>
      if decide (seg = "tasks" ∧ last = "") then Some [seg]
      else if decide (seg = "" ∧ last = "") then Some []
      else None
  | POST, [seg; last] =>
      if decide (seg = "tasks" ∧ last = "") then Some [seg] else None
  | (GET | PUT | DELETE), [seg; id; last] =>
      if decide (seg = "tasks" ∧ last = "") then Some [seg; id] else None
  | _, _ => None
  end.

(** [redirectRequest]: 301 for GET, 307 for the other methods; [http.Redirect]
    writes its short page after the header for GET only. *)
Definition redirectRequest (m : Method) (location : list string) : ResponseWriter :=
  match m with
  | GET => Render 301 (PRedirect location) newWriter
  | _ => AbortWithStatus 307 newWriter
  end.

(** The router serving one request: the handler runs on a fresh response
    writer; a request no route matches is redirected when only a trailing
    slash is in the way, and gets Gin's 404 otherwise. *)
Definition ServeHTTP (e : Env) (req : Request) (wd : World) : World * ResponseWriter :=
  match SetupRoutes (method req) (path req) with
  | Some (h, params) =>
      let s := (h e (mkContext params (body req))
                  (mkState (collection wd) (driverLog wd) newWriter)).2 in
      (mkWorld (tasks s) (calls s), writer s)
  | None =>
      match redirectTrailingSlash (method req) (path req) with
      | Some location => (wd, redirectRequest (method req) location)
      | None =>
          (wd, Render http.StatusNotFound (PString "404 page not found") newWriter)
      end
  end.

(** The requests of the claims. *)
Definition POST_tasks (b : error + Task) : Request := mkRequest POST ["tasks"] b.
Definition GET_tasks : Request := mkRequest GET ["tasks"] (inr zeroTask).
Definition GET_tasks_id (id : string) : Request :=
  mkRequest GET ["tasks"; id] (inr zeroTask).
Definition PUT_tasks_id (id : string) (b : error + Task) : Request :=
  mkRequest PUT ["tasks"; id] b.
Definition DELETE_tasks_id (id : string) : Request :=
  mkRequest DELETE ["tasks"; id] (inr zeroTask).

(** A world the API can be in: the empty collection, then any requests, each
    with a driver that generates non-zero ids (the first four bytes of a
    generated id are the clock's seconds). *)
Inductive reachable : World → Prop :=
  | reachable_empty : reachable emptyWorld
  | reachable_serve e req wd :
      reachable wd →
      NewObjectID e ≠ NilObjectID →
      reachable (ServeHTTP e req wd).1.

(** *** What the handlers keep true of every stored document *)

(** The layout the handlers maintain: a [title] string of at least 5 bytes,
    a [completed] field that is absent or [true], and no other field. *)
Definition stored_layout (d : M) : Prop :=
  (∃ t, d !! "title" = Some (VString t) ∧ (5 ≤ String.length t)%nat)
  ∧ (d !! "completed" = None ∨ d !! "completed" = Some (VBool true))
  ∧ (∀ k, k ≠ "title" → k ≠ "completed" → d !! k = None).

(** The layout with a [completed] boolean always present. *)
Definition full_layout (d : M) : Prop :=
  (∃ t, d !! "title" = Some (VString t) ∧ (5 ≤ String.length t)%nat)
  ∧ (∃ b, d !! "completed" = Some (VBool b)).

(** The invariant of the collection: every record has a non-zero id and the
    layout above. *)
Definition coll_inv (coll : Collection) : Prop :=
  ∀ id d, coll !! id = Some d → id ≠ NilObjectID ∧ stored_layout d.

(** The JSON object a stored document is rendered as by the list endpoint:
    members [_id] and [title], both strings, a member [completed] only if it
    is [true], and no other member. *)
Definition DocumentShape (o : JSONObject) : Prop :=
  (∃ i, o !! "_id" = Some (JString i))
  ∧ (∃ t, o !! "title" = Some (JString t))
  ∧ (o !! "completed" = None ∨ o !! "completed" = Some (JBool true))
  ∧ (∀ k, k ≠ "_id" → k ≠ "title" → k ≠ "completed" → o !! k = None).

(* ===================================================================== *)
(** ** Start-up *)
(* ===================================================================== *)

Module os.

(** [os.Getenv]: the empty string for a variable that is not set. *)
Definition Getenv (environ : gmap string string) (key : string) : string :=
  default "" (environ !! key).

End os.

(** What the network answers at start-up and shutdown, by connection string:
    the error of [mongo.Connect], of [client.Ping] and of
    [Client.Disconnect], if any. *)
Record Network := mkNetwork {
  Connect : string → option error;
  Ping : string → option error;
  Disconnect : option error
}.

(** What [main] does that can be seen from outside, in order. *)
Inductive Event :=
  | EvPrint (text : string)
  | EvLog (text : string)
  | EvGinDefault
  | EvSetupRoutes
  | EvGoRun (addr : string)
  | EvAwaitInterrupt
  | EvDisconnect.

#[export] Instance Event_eq_dec : EqDecision Event.
Proof. solve_decision. Defined.

Definition port : string := ":8000".

(** <<
    func init()
    >>
    [godotenv.Load] adds the variables of the [.env] file ([None]: the file
    cannot be read) that the environment does not set already. *)
Definition init (environ : gmap string string) (dotenv : option (gmap string string))
  : gmap string string * list Event :=
  match dotenv with
  | None => (environ, [EvPrint "Error loading env"])
  | Some vars => (environ ∪ vars, [])
  end.

(** <<
    func SetUpDatabase()
    >>
    returning a client and an error: the result is the error, or the
    connected client (here: its connection string). *)
Definition SetUpDatabase (environ : gmap string string) (net : Network)
  : (error + string) * list Event :=
  let uri := os.Getenv environ "MONGO_URI" in
  if decide (uri = "") then (inl (errorString "MONGO_URI not set"), [])
  else
    match Connect net uri with
    | Some err => (inl err, [])
    | None =>
        match Ping net uri with
        | Some err => (inl err, [])
        | None => (inr uri, [EvLog "Connected to MongoDB!"])
        end
    end.

(** <<
    func main()
    >>
    up to the process exit, the interrupt having arrived (the server itself
    runs in its own goroutine, started by [EvGoRun]). *)
Definition main (environ : gmap string string) (net : Network) : list Event :=
  let '(r, evs) := SetUpDatabase environ net in
  [EvGinDefault] ++ evs ++
  match r with
  | inl err => [EvPrint (Error err)]
  | inr _ =>
      [EvSetupRoutes; EvGoRun port; EvAwaitInterrupt; EvDisconnect]
      ++ match Disconnect net with
         | Some err => [EvLog ("mongo disconnect error: " +:+ Error err)]
         | None => []
         end
      ++ [EvLog "shutting down"]
  end.

(** The process serves when it has registered its routes or started the
    server. *)
Definition serves (trace : list Event) : Prop :=
  EvSetupRoutes ∈ trace ∨ ∃ addr, EvGoRun addr ∈ trace.

(* ===================================================================== *)
(** ** Concrete data for the examples *)
(* ===================================================================== *)

Definition quiet (fresh : ObjectID) : Env := mkEnv None fresh None.

Definition oid1 : ObjectID := 0x65a1b2c3d4e5f60718293a4b%N.
Definition oid1_hex : string := "65a1b2c3d4e5f60718293a4b".
Definition nil_hex : string := "000000000000000000000000".

Definition buy_milk : Task := mkTask NilObjectID "Buy milk" false.

(** The id a successful [InsertOne] of the task stores it under, and when the
    collection accepts the insert: the store answers, and that id is free. *)
Definition InsertedID (e : Env) (t : Task) : ObjectID :=
  if IsZero (ID t) then NewObjectID e else ID t.

Definition accepts_insert (e : Env) (t : Task) (coll : Collection) : Prop :=
  fault e = None ∧ coll !! InsertedID e t = None.

(** The fields of a marshalled [Task] other than [_id]. *)
Definition Task_fields (t : Task) : M :=
  <["title" := VString (Title t)]>
    (omitempty (negb (Completed t)) "completed" (VBool (Completed t)) ∅).

(** The message of the two title checks, which create and update share. *)
Definition validation_message (title : string) : string :=
  if decide (title = "") then "Title cannot be empty"
  else "Title length must be at least 5".

(* ===================================================================== *)
(** ** Sequences of requests, and titles counted in characters *)
(* ===================================================================== *)

(** Serving a sequence of requests one after the other, each with what the
    outside world contributes to it. *)
Fixpoint serve_all (trace : list (Env * Request)) (wd : World) : World :=
  match trace with
  | [] => wd
  | er :: rest => serve_all rest (ServeHTTP er.1 er.2 wd).1
  end.

(** What holds of every stored document whatever the requests: a [title]
    string of at least 5 bytes, and a [completed] field that, when the
    document has one, is a boolean. *)
Definition persisted_layout (d : M) : Prop :=
  (∃ t, d !! "title" = Some (VString t) ∧ (5 ≤ String.length t)%nat)
  ∧ (d !! "completed" = None ∨ ∃ b, d !! "completed" = Some (VBool b)).

(** The number of characters of a UTF-8 string, as opposed to its length in
    bytes: the bytes that are no continuation bytes ([10xxxxxx]). *)
Fixpoint characters (s : string) : nat :=
  match s with
  | EmptyString => 0
  | String c s' =>
      ((if ((128 <=? N_of_ascii c) && (N_of_ascii c <? 192))%N then 0 else 1)
       + characters s')%nat
  end.

(** The letter e with an acute accent, two bytes in UTF-8, and a title of
    three characters in five bytes. *)
Definition e_acute : string := String (ascii_of_N 195) (String (ascii_of_N 169) "").
Definition three_characters : string := e_acute +:+ e_acute +:+ "a".

(* ===================================================================== *)
(** ** Reading a stored document back, and the status codes in use *)
(* ===================================================================== *)

(** The [Task] a stored document decodes to when its fields have the types
    of the struct: its key as [ID], [title], and [completed] with [false]
    for an absent field. *)
Definition Task_of (id : ObjectID) (d : M) : Task :=
  mkTask id
    (match d !! "title" with Some (VString s) => s | _ => "" end)
    (match d !! "completed" with Some (VBool b) => b | _ => false end).

(** The status codes the handlers and the router answer with. *)
Definition handler_statuses : list Z := [200; 201; 400; 404; 422; 500].

(** An [ObjectID] has 12 bytes. *)
Definition ObjectID_limit : N := (2 ^ 96)%N.

(** What every run of a handler on a fresh writer satisfies, from state [s]
    to state [s']: one payload under a status in use, at most one driver
    call or the two of a list, the collection untouched by an answer other
    than 200 and 201, by a read-only handler, and by a failing driver, whose
    error is answered 500 with its message. *)
Definition orderly (e : Env) (read_only : bool) (s s' : State) : Prop :=
  ∃ code p l,
    writer s' = mkWriter code true [p]
    ∧ code ∈ handler_statuses
    ∧ calls s' = calls s ++ l
    ∧ ((length l ≤ 1)%nat ∨ l = [CallFind; CallCursorAll])
    ∧ (code ≠ 200 → code ≠ 201 → tasks s' = tasks s)
    ∧ (read_only = true → tasks s' = tasks s)
    ∧ (∀ err, fault e = Some err →
         tasks s' = tasks s
         ∧ (l ≠ [] → code = 500 ∧ p = PJSON [("error", AString (Error err))])).

(* ===================================================================== *)
(** ** The earlier variant of [main.go] *)
(* ===================================================================== *)

(** The second listing of the file: the same five handlers without title
    validation and without not-found detection, a [throwError] that always
    answers 400, and a [Task] whose [completed] field is always written
    (<<bson:"completed">>, no [omitempty]). *)
Module legacy.

Definition Task_MarshalBSON (t : Task) : M :=
  omitempty (IsZero (ID t)) "_id" (VObjectID (ID t))
    (<["title" := VString (Title t)]>
       (<["completed" := VBool (Completed t)]> ∅)).

(** The fields of a task marshalled this way, other than [_id]. *)
Definition Task_fields (t : Task) : M :=
  <["title" := VString (Title t)]> (<["completed" := VBool (Completed t)]> ∅).

(** <<
    func throwError(err error, c *gin.Context)
    >> *)
Definition throwError (err : error) : Handler unit :=
  JSON 400 [("error", AString (Error err))].

(** <<
    func CreateTask(c *gin.Context)
    >>
    The error of [BindJSON] is overwritten by that of [InsertOne]: the task
    is inserted whether or not the body decoded.  [leftover] is what the
    decoder has put into [task] when it fails. *)
Definition CreateTask (leftover : Task) (e : Env) (c : Context) : Handler unit :=
  do bound <- BindJSON c;
  let task := match bound with inl _ => leftover | inr t => t end in
  do res <- driver (CallInsertOne (Task_MarshalBSON task))
              (InsertOne e (Task_MarshalBSON task));
  match res with
  | inl err => throwError err
  | inr _ => JSON 200 [("message", AString "Task created")]
  end.

(** <<
    func GetTasks(c *gin.Context)
    >> *)
Definition GetTasks (e : Env) (c : Context) : Handler unit :=
  do res <- driver CallFind (readonly (Find e));
  match res with
  | inl err => throwError err
  | inr cursor =>
      do all <- driver CallCursorAll (readonly (λ _, All e cursor));
      match all with
      | inl err => throwError err
      | inr docs => JSON 200 [("tasks", ADocs docs)]
      end
  end.

(** <<
    func GetSpecificTask(c *gin.Context)
    >> *)
Definition GetSpecificTask (e : Env) (c : Context) : Handler unit :=
  let id := Param c "id" in
  match ObjectIDFromHex id with
  | inl err => throwError err
  | inr objectID =>
      do found <- driver (CallFindOne objectID) (readonly (FindOne e objectID));
      match Decode found with
      | inl err => throwError err
      | inr task => JSON 200 [("task", ATask task)]
      end
  end.

(** <<
    func UpdateTask(c *gin.Context)
    >> *)
Definition UpdateTask (e : Env) (c : Context) : Handler unit :=
  let id := Param c "id" in
  match ObjectIDFromHex id with
  | inl err => throwError err
  | inr objectID =>
      do bound <- BindJSON c;
      match bound with
      | inl err => throwError err
      | inr task =>
          do res <- driver (CallUpdateOne objectID (Task_MarshalBSON task))
                      (UpdateOne e objectID (Task_MarshalBSON task));
          match res with
          | inl err => throwError err
          | inr _ => JSON 200 [("message", AString "Task updated")]
          end
      end
  end.

(** <<
    func DeleteTask(c *gin.Context)
    >> *)
Definition DeleteTask (e : Env) (c : Context) : Handler unit :=
  let id := Param c "id" in
  match ObjectIDFromHex id with
  | inl err => throwError err
  | inr objectID =>
      do res <- driver (CallDeleteOne objectID) (DeleteOne e objectID);
      match res with
      | inl err => throwError err
      | inr _ => JSON 200 [("message", AString "Task deleted")]
      end
  end.

(** <<
    func SetupRoutes()
    >> *)
Definition SetupRoutes (leftover : Task) (m : Method) (p : list string)
  : option (HandlerFunc * gmap string string) :=
  match m, p with
  | GET, [] => Some (λ _ _, String_ 200 "hello", ∅)
  | POST, [seg] =>
      if decide (seg = "tasks") then Some (CreateTask leftover, ∅) else None
  | GET, [seg] =>
      if decide (seg = "tasks") then Some (GetTasks, ∅) else None
  | GET, [seg; id] =>
      if decide (seg = "tasks" ∧ id ≠ "")
      then Some (GetSpecificTask, {["id" := id]}) else None
  | PUT, [seg; id] =>
      if decide (seg = "tasks" ∧ id ≠ "")
      then Some (UpdateTask, {["id" := id]}) else None
  | DELETE, [seg; id] =>
      if decide (seg = "tasks" ∧ id ≠ "")
      then Some (DeleteTask, {["id" := id]}) else None
  | _, _ => None
  end.

(** The router of the earlier variant serving one request. *)
Definition ServeHTTP (leftover : Task) (e : Env) (req : Request) (wd : World)
  : World * ResponseWriter :=
  match SetupRoutes leftover (method req) (path req) with
  | Some (h, params) =>
      let s := (h e (mkContext params (body req))
                  (mkState (collection wd) (driverLog wd) newWriter)).2 in
      (mkWorld (tasks s) (calls s), writer s)
  | None =>
      match redirectTrailingSlash (method req) (path req) with
      | Some location => (wd, redirectRequest (method req) location)
      | None =>
          (wd, Render http.StatusNotFound (PString "404 page not found") newWriter)
      end
  end.

End legacy.

(* ===================================================================== *)
(** * Properties *)
(* ===================================================================== *)

(** ** Sanity checks of the embedding on concrete inputs *)

Example ObjectIDFromHex_nil : ObjectIDFromHex nil_hex = inr NilObjectID.
Proof. reflexivity. Qed.

Example ObjectIDFromHex_oid1 : ObjectIDFromHex oid1_hex = inr oid1.
Proof. reflexivity. Qed.

Example Hex_oid1 : Hex oid1 = oid1_hex.
Proof. reflexivity. Qed.

Example ObjectIDFromHex_short : ObjectIDFromHex "abc" = inl ErrInvalidHex.
Proof. reflexivity. Qed.

Example ObjectIDFromHex_bad_digit :
  ObjectIDFromHex "65a1b2c3d4e5f60718293a4g" = inl (InvalidByteError "g").
Proof. reflexivity. Qed.

Example marshal_omits_false :
  Task_MarshalBSON buy_milk = {["title" := VString "Buy milk"]}.
Proof. reflexivity. Qed.

Example create_then_fetch :
  let wd := (ServeHTTP (quiet oid1) (POST_tasks (inr buy_milk)) emptyWorld).1 in
  (ServeHTTP (quiet oid1) (GET_tasks_id oid1_hex) wd).2
  = mkWriter 200 true [PJSON [("task", ATask (mkTask oid1 "Buy milk" false))]].
Proof. vm_compute. reflexivity. Qed.

Example bad_id_is_400 :
  (ServeHTTP (quiet oid1) (DELETE_tasks_id "xyz") emptyWorld).2
  = mkWriter 400 true
      [PJSON [("error", AString "the provided hex string is not a valid ObjectID")]].
Proof. reflexivity. Qed.

(** ** Routing and parameters *)

Lemma ObjectIDFromHex_nonempty id oid : ObjectIDFromHex id = inr oid → id ≠ "".
Proof.
  unfold ObjectIDFromHex. intros Hparse ->. simpl in Hparse. discriminate.
Qed.

Lemma Param_id id b : Param (mkContext {["id" := id]} b) "id" = id.
Proof. unfold Param. simpl. by rewrite lookup_singleton_eq. Qed.

Lemma serve_create e b wd :
  ServeHTTP e (POST_tasks b) wd
  = let s := (CreateTask e (mkContext ∅ b)
                (mkState (collection wd) (driverLog wd) newWriter)).2 in
    (mkWorld (tasks s) (calls s), writer s).
Proof. reflexivity. Qed.

Lemma serve_list e wd :
  ServeHTTP e GET_tasks wd
  = let s := (GetTasks e (mkContext ∅ (inr zeroTask))
                (mkState (collection wd) (driverLog wd) newWriter)).2 in
    (mkWorld (tasks s) (calls s), writer s).
Proof. reflexivity. Qed.

Lemma serve_get e id wd :
  id ≠ "" →
  ServeHTTP e (GET_tasks_id id) wd
  = let s := (GetSpecificTask e (mkContext {["id" := id]} (inr zeroTask))
                (mkState (collection wd) (driverLog wd) newWriter)).2 in
    (mkWorld (tasks s) (calls s), writer s).
Proof.
  intros Hid. unfold ServeHTTP, GET_tasks_id, SetupRoutes. cbn [method path].
  rewrite decide_True by done. reflexivity.
Qed.

Lemma serve_update e id b wd :
  id ≠ "" →
  ServeHTTP e (PUT_tasks_id id b) wd
  = let s := (UpdateTask e (mkContext {["id" := id]} b)
                (mkState (collection wd) (driverLog wd) newWriter)).2 in
    (mkWorld (tasks s) (calls s), writer s).
Proof.
  intros Hid. unfold ServeHTTP, PUT_tasks_id, SetupRoutes. cbn [method path].
  rewrite decide_True by done. reflexivity.
Qed.

Lemma serve_delete e id wd :
  id ≠ "" →
  ServeHTTP e (DELETE_tasks_id id) wd
  = let s := (DeleteTask e (mkContext {["id" := id]} (inr zeroTask))
                (mkState (collection wd) (driverLog wd) newWriter)).2 in
    (mkWorld (tasks s) (calls s), writer s).
Proof.
  intros Hid. unfold ServeHTTP, DELETE_tasks_id, SetupRoutes. cbn [method path].
  rewrite decide_True by done. reflexivity.
Qed.

Lemma World_eta wd : mkWorld (collection wd) (driverLog wd) = wd.
Proof. by destruct wd. Qed.

(** The route table read backwards: the handler of a routed request is one
    of the six that [SetupRoutes] registers. *)
Lemma SetupRoutes_cases m p h params :
  SetupRoutes m p = Some (h, params) →
  (m = GET ∧ p = [] ∧ h = (λ _ _, String_ 200 "hello"))
  ∨ (m = POST ∧ p = ["tasks"] ∧ h = CreateTask)
  ∨ (m = GET ∧ p = ["tasks"] ∧ h = GetTasks)
  ∨ (∃ id, id ≠ "" ∧ p = ["tasks"; id] ∧ params = {["id" := id]}
           ∧ ((m = GET ∧ h = GetSpecificTask)
              ∨ (m = PUT ∧ h = UpdateTask)
              ∨ (m = DELETE ∧ h = DeleteTask))).
Proof.
  unfold SetupRoutes.
  destruct m, p as [|seg [|id [|]]]; try discriminate;
    repeat case_decide; try discriminate; intros [= <- <-].
  - by left.
  - subst seg. right. right. by left.
  - destruct_and!. subst seg. do 3 right. exists id. eauto 10.
  - subst seg. right. by left.
  - destruct_and!. subst seg. do 3 right. exists id. eauto 10.
  - destruct_and!. subst seg. do 3 right. exists id. eauto 10.
Qed.

Lemma ServeHTTP_routed e req wd h params :
  SetupRoutes (method req) (path req) = Some (h, params) →
  ServeHTTP e req wd
  = let s := (h e (mkContext params (body req))
                (mkState (collection wd) (driverLog wd) newWriter)).2 in
    (mkWorld (tasks s) (calls s), writer s).
Proof. intros Hr. unfold ServeHTTP. by rewrite Hr. Qed.

(** A request without a route leaves the world alone; it is answered 404, or
    301 or 307 by the trailing-slash redirect. *)
Lemma ServeHTTP_unrouted e req wd :
  SetupRoutes (method req) (path req) = None →
  (ServeHTTP e req wd).1 = wd
  ∧ (Status (ServeHTTP e req wd).2 = 404
     ∨ Status (ServeHTTP e req wd).2 = 301
     ∨ Status (ServeHTTP e req wd).2 = 307).
Proof.
  intros Hr. unfold ServeHTTP. rewrite Hr.
  destruct (redirectTrailingSlash _ _) as [location|]; [|by split; [|left]].
  split; [done|]. destruct (method req); cbn; auto.
Qed.

(** ** Title validation (create and update) *)

Lemma CreateTask_short_title e params task s :
  (String.length (Title task) < 5)%nat →
  CreateTask e (mkContext params (inr task)) s
  = (tt, mkState (tasks s) (calls s)
           (Render 422 (PJSON [("message", AString (validation_message (Title task)))])
              (writer s))).
Proof.
  intros Hlen. unfold CreateTask, validation_message, bind, BindJSON, ret. cbn [Bound].
  destruct (decide (Title task = "")); [reflexivity|].
  rewrite decide_True by done. reflexivity.
Qed.

Lemma UpdateTask_short_title e id oid task s :
  ObjectIDFromHex id = inr oid →
  (String.length (Title task) < 5)%nat →
  UpdateTask e (mkContext {["id" := id]} (inr task)) s
  = (tt, mkState (tasks s) (calls s)
           (Render 422 (PJSON [("message", AString (validation_message (Title task)))])
              (writer s))).
Proof.
  intros Hid Hlen. unfold UpdateTask. rewrite Param_id, Hid.
  unfold validation_message, bind, BindJSON, ret. cbn [Bound].
  destruct (decide (Title task = "")); [reflexivity|].
  rewrite decide_True by done. reflexivity.
Qed.

(** C4 (length in bytes).  A create request, or an update request with a
    well-formed id, whose decoded title is shorter than 5 bytes (Go's [len])
    is answered 422, with the message
    "Title cannot be empty" for the empty title and "Title length must be at
    least 5" for any other; the world comes back as it was: the collection is
    the same and the log of driver calls has no new entry. *)
Theorem short_title_is_422_without_store_call e wd task req :
  req = POST_tasks (inr task)
  ∨ (∃ id oid, ObjectIDFromHex id = inr oid ∧ req = PUT_tasks_id id (inr task)) →
  (String.length (Title task) < 5)%nat →
  ServeHTTP e req wd
  = (wd, mkWriter 422 true
           [PJSON [("message",
                    AString (if decide (Title task = "") then "Title cannot be empty"
                             else "Title length must be at least 5"))]]).
Proof.
  intros [-> | (id & oid & Hid & ->)] Hlen.
  - rewrite serve_create, CreateTask_short_title by done.
    cbn. by rewrite World_eta.
  - rewrite serve_update by eauto using ObjectIDFromHex_nonempty.
    rewrite (UpdateTask_short_title _ _ oid) by done.
    cbn. by rewrite World_eta.
Qed.

Lemma short_title_is_422_without_store_call_witness :
  ServeHTTP (quiet oid1) (PUT_tasks_id oid1_hex (inr (mkTask NilObjectID "ab" true)))
    emptyWorld
  = (emptyWorld,
     mkWriter 422 true [PJSON [("message", AString "Title length must be at least 5")]]).
Proof.
  apply (short_title_is_422_without_store_call
           (quiet oid1) emptyWorld (mkTask NilObjectID "ab" true)).
  - right. exists oid1_hex, oid1. split; reflexivity.
  - simpl. lia.
Defined.

(** C4 as stated, with the title counted in characters, fails: a title of
    three characters whose UTF-8 encoding has five bytes passes both checks;
    the create request is answered 201 and the record is stored. *)
Lemma title_of_three_characters_is_accepted :
  let r := ServeHTTP (quiet oid1)
             (POST_tasks (inr (mkTask NilObjectID three_characters false))) emptyWorld in
  three_characters ≠ ""
  ∧ characters three_characters = 3%nat
  ∧ String.length three_characters = 5%nat
  ∧ Status r.2 = 201
  ∧ collection r.1 !! oid1 = Some {["title" := VString three_characters]}
  ∧ driverLog r.1 ≠ driverLog emptyWorld.
Proof. vm_compute. split_and!; done. Qed.

(** ** Malformed bodies *)

Lemma BindJSON_error c err s :
  Bound c = inl err →
  BindJSON c s
  = (inl err, mkState (tasks s) (calls s) (AbortWithStatus 400 (writer s))).
Proof. intros Hb. unfold BindJSON. rewrite Hb. reflexivity. Qed.

(** Once the header is out, a later [Render] adds its payload and leaves the
    status alone. *)
Lemma Render_after_abort code code' p w :
  0 < code →
  Written w = false →
  Render code' p (AbortWithStatus code w) = mkWriter code true (Body w ++ [p]).
Proof.
  intros Hpos Hw. unfold Render, Write, AbortWithStatus, WriteHeaderNow, WriteHeader.
  rewrite Hw. destruct (decide (0 < code ∧ Status w ≠ code)) as [?|Hn]; cbn.
  - destruct (decide (0 < code' ∧ code ≠ code')); reflexivity.
  - assert (Status w = code) as -> by (destruct (decide (Status w = code)); [done|]; exfalso; apply Hn; done).
    destruct (decide (0 < code' ∧ code ≠ code')); reflexivity.
Qed.

(** C6.  An update request with a well-formed id and a body that does not
    decode is answered with status 400: binding the body has sent the 400
    header before the handler reports the error, so the status the handler
    asks for afterwards does not reach the client.  The body of the response
    carries the decoding error, and no driver call is made. *)
Theorem update_malformed_body_is_400 e wd id oid err :
  ObjectIDFromHex id = inr oid →
  ServeHTTP e (PUT_tasks_id id (inl err)) wd
  = (wd, mkWriter 400 true [PJSON [("error", AString (Error err))]]).
Proof.
  intros Hid. rewrite serve_update by eauto using ObjectIDFromHex_nonempty.
  unfold UpdateTask. rewrite Param_id, Hid. unfold bind.
  rewrite (BindJSON_error _ err) by reflexivity.
  unfold throwError, JSON, onWriter. cbn [writer tasks calls snd].
  rewrite decide_False by done.
  rewrite Render_after_abort by done. cbn. by rewrite World_eta.
Qed.

Lemma update_malformed_body_is_400_witness :
  ServeHTTP (quiet oid1)
    (PUT_tasks_id oid1_hex (inl (errorString "unexpected EOF"))) emptyWorld
  = (emptyWorld, mkWriter 400 true [PJSON [("error", AString "unexpected EOF")]]).
Proof.
  apply (update_malformed_body_is_400 (quiet oid1) emptyWorld oid1_hex oid1).
  reflexivity.
Defined.

(** The same for create, where the handler itself also asks for 400. *)
Lemma create_malformed_body_is_400 e wd err :
  ServeHTTP e (POST_tasks (inl err)) wd
  = (wd, mkWriter 400 true [PJSON [("error", AString "invalid json")]]).
Proof.
  rewrite serve_create. unfold CreateTask, bind.
  rewrite (BindJSON_error _ err) by reflexivity.
  unfold throwError, JSON, onWriter. cbn [writer tasks calls snd].
  rewrite decide_False by done.
  rewrite Render_after_abort by done. cbn. by rewrite World_eta.
Qed.

(** ** Malformed ids *)

(** X16.  An id that does not parse is answered 400 with the parse error by
    each of the three id-scoped endpoints, before anything else happens: the
    body is not looked at, no driver call is made, the world is as before. *)
Lemma malformed_id_is_400 e wd id err b req :
  id ≠ "" →
  ObjectIDFromHex id = inl err →
  req = GET_tasks_id id ∨ req = PUT_tasks_id id b ∨ req = DELETE_tasks_id id →
  ServeHTTP e req wd
  = (wd, mkWriter 400 true [PJSON [("error", AString (Error err))]]).
Proof.
  intros Hne Hid [-> | [-> | ->]].
  - rewrite serve_get by done. unfold GetSpecificTask. rewrite Param_id, Hid.
    cbn. by rewrite World_eta.
  - rewrite serve_update by done. unfold UpdateTask. rewrite Param_id, Hid.
    cbn. by rewrite World_eta.
  - rewrite serve_delete by done. unfold DeleteTask. rewrite Param_id, Hid.
    cbn. by rewrite World_eta.
Qed.

(** ** The marshalled task *)

Lemma Task_MarshalBSON_id t :
  Task_MarshalBSON t !! "_id"
  = if IsZero (ID t) then None else Some (VObjectID (ID t)).
Proof.
  unfold Task_MarshalBSON, omitempty.
  destruct (IsZero (ID t)), (Completed t); reflexivity.
Qed.

Lemma Task_MarshalBSON_fields t : delete "_id" (Task_MarshalBSON t) = Task_fields t.
Proof.
  unfold Task_MarshalBSON, omitempty at 1. fold (Task_fields t).
  assert (Task_fields t !! "_id" = None) as Hnone
    by (unfold Task_fields, omitempty; destruct (Completed t); reflexivity).
  destruct (IsZero (ID t)).
  - by apply delete_id.
  - rewrite delete_insert_eq. by apply delete_id.
Qed.

Lemma Task_fields_title t : Task_fields t !! "title" = Some (VString (Title t)).
Proof. unfold Task_fields. by rewrite lookup_insert_eq. Qed.

Lemma Task_fields_completed t :
  Task_fields t !! "completed" = if Completed t then Some (VBool true) else None.
Proof. unfold Task_fields, omitempty. destruct (Completed t); reflexivity. Qed.

Lemma Task_fields_other t k :
  k ≠ "title" → k ≠ "completed" → Task_fields t !! k = None.
Proof.
  intros Ht Hc. unfold Task_fields, omitempty.
  rewrite lookup_insert_ne by done.
  destruct (Completed t); cbn; [by rewrite lookup_insert_ne|]; apply lookup_empty.
Qed.

Lemma IsZero_false id : IsZero id = false ↔ id ≠ NilObjectID.
Proof. unfold IsZero. by rewrite N.eqb_neq. Qed.

Lemma InsertedID_nonzero e t : NewObjectID e ≠ NilObjectID → InsertedID e t ≠ NilObjectID.
Proof.
  intros He. unfold InsertedID. destruct (IsZero (ID t)) eqn:Hz; [done|].
  by apply IsZero_false.
Qed.

(** ** Create *)

Lemma InsertOne_accepted e t coll :
  accepts_insert e t coll →
  InsertOne e (Task_MarshalBSON t) coll
  = inr (InsertedID e t, <[InsertedID e t := Task_fields t]> coll).
Proof.
  intros [Hf Hfree]. unfold InsertOne. rewrite Hf, Task_MarshalBSON_id.
  unfold InsertedID in *. destruct (IsZero (ID t)); rewrite Hfree;
    by rewrite Task_MarshalBSON_fields.
Qed.

Lemma InsertOne_inv e doc coll id coll' :
  InsertOne e doc coll = inr (id, coll') →
  coll !! id = None ∧ coll' = <[id := delete "_id" doc]> coll
  ∧ (id = NewObjectID e ∨ doc !! "_id" = Some (VObjectID id)).
Proof.
  unfold InsertOne. destruct (fault e); [done|].
  destruct (doc !! "_id") as [[i| |]|] eqn:Hid; cbn;
    match goal with |- context [coll !! ?k] => destruct (coll !! k) eqn:Hk end;
    intros [= <- <-]; auto.
Qed.

Lemma long_title_nonempty (title : string) : (5 ≤ String.length title)%nat → title ≠ "".
Proof. intros Hlen ->. simpl in Hlen. lia. Qed.

Lemma CreateTask_validated e params task s :
  (5 ≤ String.length (Title task))%nat →
  CreateTask e (mkContext params (inr task)) s
  = let doc := Task_MarshalBSON (setCompleted false task) in
    match InsertOne e doc (tasks s) with
    | inl err =>
        (tt, mkState (tasks s) (calls s ++ [CallInsertOne doc])
               (Render 500 (PJSON [("error", AString (Error err))]) (writer s)))
    | inr (_, coll) =>
        (tt, mkState coll (calls s ++ [CallInsertOne doc])
               (Render 201 (PJSON [("message", AString "Task created");
                                   ("task", ATask (setCompleted false task))])
                  (writer s)))
    end.
Proof.
  intros Hlen. unfold CreateTask, bind, BindJSON, ret. cbn [Bound Title].
  rewrite decide_False by by apply long_title_nonempty.
  rewrite decide_False by lia.
  unfold driver. cbn zeta.
  destruct (InsertOne e _ (tasks s)) as [err|[id coll]]; reflexivity.
Qed.

(** What an accepted create does, in full: world and response. *)
Lemma create_accepted e wd task :
  (5 ≤ String.length (Title task))%nat →
  accepts_insert e task (collection wd) →
  ServeHTTP e (POST_tasks (inr task)) wd
  = (mkWorld (<[InsertedID e task := Task_fields (setCompleted false task)]> (collection wd))
       (driverLog wd ++ [CallInsertOne (Task_MarshalBSON (setCompleted false task))]),
     mkWriter 201 true
       [PJSON [("message", AString "Task created");
               ("task", ATask (setCompleted false task))]]).
Proof.
  intros Hlen Hacc. rewrite serve_create, CreateTask_validated by done.
  cbn [tasks calls writer].
  rewrite (InsertOne_accepted e (setCompleted false task)) by done.
  reflexivity.
Qed.

(** C1.  A create request whose body decodes into a task with a title of
    length at least 5, and whose insert the collection accepts, is answered
    201, and the task in the response has [completed = false] whatever the
    body said (its title and id are the body's). *)
Theorem create_is_201_with_completed_false e wd task :
  (5 ≤ String.length (Title task))%nat →
  accepts_insert e task (collection wd) →
  ∃ t, (ServeHTTP e (POST_tasks (inr task)) wd).2
       = mkWriter 201 true
           [PJSON [("message", AString "Task created"); ("task", ATask t)]]
       ∧ Completed t = false ∧ Title t = Title task ∧ ID t = ID task.
Proof.
  intros Hlen Hacc. exists (setCompleted false task).
  rewrite create_accepted by done. done.
Qed.

Lemma create_is_201_with_completed_false_witness :
  ∃ t, (ServeHTTP (quiet oid1)
          (POST_tasks (inr (mkTask NilObjectID "Buy milk" true))) emptyWorld).2
       = mkWriter 201 true
           [PJSON [("message", AString "Task created"); ("task", ATask t)]]
       ∧ Completed t = false ∧ Title t = "Buy milk" ∧ ID t = NilObjectID.
Proof.
  apply (create_is_201_with_completed_false (quiet oid1) emptyWorld
           (mkTask NilObjectID "Buy milk" true)).
  - simpl. lia.
  - split; reflexivity.
Defined.

(** When the store reports an error the answer is 500 with its message, and
    nothing is stored. *)
Lemma create_store_error e wd task err :
  (5 ≤ String.length (Title task))%nat →
  InsertOne e (Task_MarshalBSON (setCompleted false task)) (collection wd) = inl err →
  ServeHTTP e (POST_tasks (inr task)) wd
  = (mkWorld (collection wd)
       (driverLog wd ++ [CallInsertOne (Task_MarshalBSON (setCompleted false task))]),
     mkWriter 500 true [PJSON [("error", AString (Error err))]]).
Proof.
  intros Hlen Herr. rewrite serve_create, CreateTask_validated by done.
  cbn [tasks calls writer]. rewrite Herr. reflexivity.
Qed.

(** ** Delete *)

Lemma DeleteTask_run e id oid b s :
  ObjectIDFromHex id = inr oid →
  DeleteTask e (mkContext {["id" := id]} b) s
  = match DeleteOne e oid (tasks s) with
    | inl err =>
        (tt, mkState (tasks s) (calls s ++ [CallDeleteOne oid])
               (Render 500 (PJSON [("error", AString (Error err))]) (writer s)))
    | inr (r, coll) =>
        (tt, mkState coll (calls s ++ [CallDeleteOne oid])
               (if decide (DeletedCount r = 0)
                then Render 404 (PJSON [("message", AString "Task not found")]) (writer s)
                else Render 200 (PJSON [("message", AString "Task deleted")]) (writer s)))
    end.
Proof.
  intros Hid. unfold DeleteTask. rewrite Param_id, Hid.
  unfold bind, driver.
  destruct (DeleteOne e oid (tasks s)) as [err|[r coll]]; [reflexivity|].
  destruct (decide (DeletedCount r = 0)); reflexivity.
Qed.

Lemma delete_existing e wd id oid :
  ObjectIDFromHex id = inr oid →
  fault e = None →
  is_Some (collection wd !! oid) →
  ServeHTTP e (DELETE_tasks_id id) wd
  = (mkWorld (delete oid (collection wd)) (driverLog wd ++ [CallDeleteOne oid]),
     mkWriter 200 true [PJSON [("message", AString "Task deleted")]]).
Proof.
  intros Hid Hf [d Hd]. rewrite serve_delete by eauto using ObjectIDFromHex_nonempty.
  rewrite (DeleteTask_run _ _ oid) by done. cbn [tasks calls writer].
  unfold DeleteOne. rewrite Hf, Hd. reflexivity.
Qed.

Lemma delete_missing e wd id oid :
  ObjectIDFromHex id = inr oid →
  fault e = None →
  collection wd !! oid = None →
  ServeHTTP e (DELETE_tasks_id id) wd
  = (mkWorld (collection wd) (driverLog wd ++ [CallDeleteOne oid]),
     mkWriter 404 true [PJSON [("message", AString "Task not found")]]).
Proof.
  intros Hid Hf Hd. rewrite serve_delete by eauto using ObjectIDFromHex_nonempty.
  rewrite (DeleteTask_run _ _ oid) by done. cbn [tasks calls writer].
  unfold DeleteOne. rewrite Hf, Hd. reflexivity.
Qed.

(** C7.  For a well-formed id of a stored record, with the store answering
    both times, two DELETE requests in a row are answered 200 with message
    "Task deleted" and then 404. *)
Theorem delete_twice_is_200_then_404 e1 e2 wd id oid :
  ObjectIDFromHex id = inr oid →
  is_Some (collection wd !! oid) →
  fault e1 = None →
  fault e2 = None →
  let first := ServeHTTP e1 (DELETE_tasks_id id) wd in
  let second := ServeHTTP e2 (DELETE_tasks_id id) first.1 in
  first.2 = mkWriter 200 true [PJSON [("message", AString "Task deleted")]]
  ∧ second.2 = mkWriter 404 true [PJSON [("message", AString "Task not found")]].
Proof.
  intros Hid Hd Hf1 Hf2. cbn zeta.
  rewrite (delete_existing e1 wd id oid) by done. split; [done|].
  rewrite (delete_missing e2 _ id oid); [done..|].
  cbn. apply lookup_delete_eq.
Qed.

Lemma delete_twice_is_200_then_404_witness :
  let wd := mkWorld {[oid1 := Task_fields buy_milk]} [] in
  let first := ServeHTTP (quiet 1%N) (DELETE_tasks_id oid1_hex) wd in
  let second := ServeHTTP (quiet 2%N) (DELETE_tasks_id oid1_hex) first.1 in
  first.2 = mkWriter 200 true [PJSON [("message", AString "Task deleted")]]
  ∧ second.2 = mkWriter 404 true [PJSON [("message", AString "Task not found")]].
Proof.
  apply (delete_twice_is_200_then_404 (quiet 1%N) (quiet 2%N)
           (mkWorld {[oid1 := Task_fields buy_milk]} []) oid1_hex oid1).
  - reflexivity.
  - exists (Task_fields buy_milk). apply lookup_singleton_eq.
  - reflexivity.
  - reflexivity.
Defined.

(** ** Get by id *)

Lemma GetSpecificTask_run e id oid b s :
  ObjectIDFromHex id = inr oid →
  GetSpecificTask e (mkContext {["id" := id]} b) s
  = (tt, mkState (tasks s) (calls s ++ [CallFindOne oid])
           (match Decode (FindOne e oid (tasks s)) with
            | inl err => Render 500 (PJSON [("error", AString (Error err))]) (writer s)
            | inr task => Render 200 (PJSON [("task", ATask task)]) (writer s)
            end)).
Proof.
  intros Hid. unfold GetSpecificTask. rewrite Param_id, Hid.
  unfold bind, driver, readonly.
  destruct (FindOne e oid (tasks s)) as [err|doc]; cbn [Decode].
  - reflexivity.
  - destruct (Task_UnmarshalBSON doc); reflexivity.
Qed.

(** A lookup miss on get-by-id: the driver's [ErrNoDocuments] goes the way of
    every other error of the call. *)
Lemma get_missing e wd id oid :
  ObjectIDFromHex id = inr oid →
  fault e = None →
  collection wd !! oid = None →
  ServeHTTP e (GET_tasks_id id) wd
  = (mkWorld (collection wd) (driverLog wd ++ [CallFindOne oid]),
     mkWriter 500 true [PJSON [("error", AString "mongo: no documents in result")]]).
Proof.
  intros Hid Hf Hd. rewrite serve_get by eauto using ObjectIDFromHex_nonempty.
  rewrite (GetSpecificTask_run _ _ oid) by done. cbn [tasks calls writer].
  unfold FindOne. rewrite Hf, Hd. reflexivity.
Qed.

(** ** Update *)

Lemma UpdateTask_validated e id oid task s :
  ObjectIDFromHex id = inr oid →
  (5 ≤ String.length (Title task))%nat →
  UpdateTask e (mkContext {["id" := id]} (inr task)) s
  = let upd := Task_MarshalBSON task in
    match UpdateOne e oid upd (tasks s) with
    | inl err =>
        (tt, mkState (tasks s) (calls s ++ [CallUpdateOne oid upd])
               (Render 500 (PJSON [("error", AString (Error err))]) (writer s)))
    | inr (r, coll) =>
        (tt, mkState coll (calls s ++ [CallUpdateOne oid upd])
               (if decide (MatchedCount r = 0)
                then Render 404 (PJSON [("message", AString "Task not found")]) (writer s)
                else Render 200 (PJSON [("message", AString "Task updated")]) (writer s)))
    end.
Proof.
  intros Hid Hlen. unfold UpdateTask. rewrite Param_id, Hid.
  unfold bind, BindJSON, ret. cbn [Bound].
  rewrite decide_False by by apply long_title_nonempty.
  rewrite decide_False by lia.
  unfold driver. cbn zeta.
  destruct (UpdateOne e oid _ (tasks s)) as [err|[r coll]]; [reflexivity|].
  destruct (decide (MatchedCount r = 0)); reflexivity.
Qed.

Lemma update_missing e wd id oid task :
  ObjectIDFromHex id = inr oid →
  fault e = None →
  (5 ≤ String.length (Title task))%nat →
  collection wd !! oid = None →
  ServeHTTP e (PUT_tasks_id id (inr task)) wd
  = (mkWorld (collection wd) (driverLog wd ++ [CallUpdateOne oid (Task_MarshalBSON task)]),
     mkWriter 404 true [PJSON [("message", AString "Task not found")]]).
Proof.
  intros Hid Hf Hlen Hd. rewrite serve_update by eauto using ObjectIDFromHex_nonempty.
  rewrite (UpdateTask_validated _ _ oid) by done. cbn [tasks calls writer].
  unfold UpdateOne. rewrite Hf, Hd. reflexivity.
Qed.

(** The guard of [UpdateOne] on a marshalled task: the body carries no id, or
    the id of the record it addresses. *)
Lemma set_keeps_id_iff t oid :
  (Task_MarshalBSON t !! "_id" = None
   ∨ Task_MarshalBSON t !! "_id" = Some (VObjectID oid))
  ↔ (ID t = NilObjectID ∨ ID t = oid).
Proof.
  rewrite Task_MarshalBSON_id. destruct (IsZero (ID t)) eqn:Hz.
  - apply N.eqb_eq in Hz. split; auto.
  - apply IsZero_false in Hz. split.
    + intros [H|H]; [discriminate H|]. injection H as ->. by right.
    + intros [H|H]; [done|]. right. by rewrite H.
Qed.

Lemma UpdateOne_matched e oid t coll d :
  fault e = None →
  coll !! oid = Some d →
  ID t = NilObjectID ∨ ID t = oid →
  ∃ r, UpdateOne e oid (Task_MarshalBSON t) coll
       = inr (r, <[oid := Task_fields t ∪ d]> coll) ∧ MatchedCount r = 1.
Proof.
  intros Hf Hd Hid. unfold UpdateOne. rewrite Hf, Hd.
  rewrite decide_True by by apply set_keeps_id_iff.
  rewrite Task_MarshalBSON_fields. eexists. split; reflexivity.
Qed.

Lemma UpdateOne_foreign_id e oid t coll d :
  fault e = None →
  coll !! oid = Some d →
  ID t ≠ NilObjectID → ID t ≠ oid →
  UpdateOne e oid (Task_MarshalBSON t) coll = inl ImmutableFieldError.
Proof.
  intros Hf Hd Hnz Hne. unfold UpdateOne. rewrite Hf, Hd.
  rewrite decide_False; [done|]. rewrite set_keeps_id_iff. by intros [?|?].
Qed.

(** An update that matches: the fields of the marshalled body are laid over
    the stored document, under the same key. *)
Lemma update_existing e wd id oid task d :
  ObjectIDFromHex id = inr oid →
  fault e = None →
  (5 ≤ String.length (Title task))%nat →
  collection wd !! oid = Some d →
  ID task = NilObjectID ∨ ID task = oid →
  ServeHTTP e (PUT_tasks_id id (inr task)) wd
  = (mkWorld (<[oid := Task_fields task ∪ d]> (collection wd))
       (driverLog wd ++ [CallUpdateOne oid (Task_MarshalBSON task)]),
     mkWriter 200 true [PJSON [("message", AString "Task updated")]]).
Proof.
  intros Hid Hf Hlen Hd Hbody.
  rewrite serve_update by eauto using ObjectIDFromHex_nonempty.
  rewrite (UpdateTask_validated _ _ oid) by done. cbn [tasks calls writer].
  destruct (UpdateOne_matched e oid task _ d Hf Hd Hbody) as (r & -> & Hr).
  cbn. rewrite decide_False by lia. reflexivity.
Qed.

(** A body that names another id than the addressed record's: the store
    refuses to change [_id], the answer is 500 and nothing changes. *)
Lemma update_with_foreign_id e wd id oid task d :
  ObjectIDFromHex id = inr oid →
  fault e = None →
  (5 ≤ String.length (Title task))%nat →
  collection wd !! oid = Some d →
  ID task ≠ NilObjectID → ID task ≠ oid →
  ServeHTTP e (PUT_tasks_id id (inr task)) wd
  = (mkWorld (collection wd)
       (driverLog wd ++ [CallUpdateOne oid (Task_MarshalBSON task)]),
     mkWriter 500 true [PJSON [("error", AString (Error ImmutableFieldError))]]).
Proof.
  intros Hid Hf Hlen Hd Hnz Hne.
  rewrite serve_update by eauto using ObjectIDFromHex_nonempty.
  rewrite (UpdateTask_validated _ _ oid) by done. cbn [tasks calls writer].
  rewrite (UpdateOne_foreign_id e oid task _ d) by done. reflexivity.
Qed.

(** The document an update leaves: the new title; [completed] set to [true]
    when the body says [true], and otherwise what was stored; every other
    field as stored. *)
Lemma updated_title t (d : M) :
  (Task_fields t ∪ d) !! "title" = Some (VString (Title t)).
Proof. apply lookup_union_Some_l, Task_fields_title. Qed.

Lemma updated_completed t (d : M) :
  (Task_fields t ∪ d) !! "completed"
  = if Completed t then Some (VBool true) else d !! "completed".
Proof.
  destruct (Completed t) eqn:Hc.
  - apply lookup_union_Some_l. by rewrite Task_fields_completed, Hc.
  - apply lookup_union_r. by rewrite Task_fields_completed, Hc.
Qed.

Lemma updated_other t (d : M) k :
  k ≠ "title" → k ≠ "completed" → (Task_fields t ∪ d) !! k = d !! k.
Proof. intros. apply lookup_union_r. by apply Task_fields_other. Qed.

(** The keys of the collection do not change under any update request: no
    record is created, removed or moved to another id. *)
Lemma update_keeps_keys e wd id b :
  dom (collection (ServeHTTP e (PUT_tasks_id id b) wd).1) = dom (collection wd).
Proof.
  destruct (decide (id = "")) as [->|Hne]; [reflexivity|].
  rewrite serve_update by done. unfold UpdateTask. rewrite Param_id.
  destruct (ObjectIDFromHex id) as [err|oid]; [reflexivity|].
  unfold bind, BindJSON, ret. cbn [Bound].
  destruct b as [err|task]; [reflexivity|].
  destruct (decide (Title task = "")); [reflexivity|].
  destruct (decide (String.length (Title task) < 5)%nat); [reflexivity|].
  unfold driver, UpdateOne. cbn [tasks calls writer].
  destruct (fault e); [reflexivity|].
  destruct (collection wd !! oid) as [d|] eqn:Hd; [|reflexivity].
  case_decide; [|reflexivity].
  rewrite decide_False by done. cbn.
  rewrite dom_insert_L. apply elem_of_dom_2 in Hd.
  by apply subseteq_union_1_L, singleton_subseteq_l.
Qed.

(** ** The invariant of the collection *)

Lemma stored_layout_fields t :
  (5 ≤ String.length (Title t))%nat → stored_layout (Task_fields t).
Proof.
  intros Hlen. split; [|split].
  - exists (Title t). by rewrite Task_fields_title.
  - rewrite Task_fields_completed. destruct (Completed t); auto.
  - apply Task_fields_other.
Qed.

Lemma stored_layout_update t d :
  (5 ≤ String.length (Title t))%nat →
  stored_layout d → stored_layout (Task_fields t ∪ d).
Proof.
  intros Hlen (_ & Hc & Ho). split; [|split].
  - exists (Title t). by rewrite updated_title.
  - rewrite updated_completed. destruct (Completed t); auto.
  - intros k Ht Hk. rewrite updated_other by done. by apply Ho.
Qed.

Lemma coll_inv_empty : coll_inv ∅.
Proof. intros id d Hd. by rewrite lookup_empty in Hd. Qed.

Lemma coll_inv_insert coll id d :
  coll_inv coll → id ≠ NilObjectID → stored_layout d → coll_inv (<[id := d]> coll).
Proof.
  intros Hinv Hid Hd k d' [[<- <-]|[_ Hk]]%lookup_insert_Some; [done|].
  by apply Hinv.
Qed.

Lemma coll_inv_delete coll id : coll_inv coll → coll_inv (delete id coll).
Proof. intros Hinv k d [_ Hk]%lookup_delete_Some. by apply Hinv. Qed.

Lemma CreateTask_inv e c s :
  NewObjectID e ≠ NilObjectID →
  coll_inv (tasks s) → coll_inv (tasks (CreateTask e c s).2).
Proof.
  intros He Hinv. destruct c as [params [err|task]]; [done|].
  destruct (decide (String.length (Title task) < 5)%nat) as [Hlt|Hge].
  { by rewrite CreateTask_short_title. }
  rewrite CreateTask_validated by lia. cbn zeta.
  destruct (InsertOne e _ (tasks s)) as [err|[id coll]] eqn:Hins; [done|].
  apply InsertOne_inv in Hins as (_ & -> & Hid). cbn [snd tasks].
  rewrite Task_MarshalBSON_fields. apply coll_inv_insert; [done| |].
  - destruct Hid as [->|Hid]; [done|].
    rewrite Task_MarshalBSON_id in Hid.
    destruct (IsZero _) eqn:Hz; [done|]. injection Hid as <-.
    by apply IsZero_false.
  - apply stored_layout_fields. cbn. lia.
Qed.

Lemma UpdateTask_inv e c s :
  coll_inv (tasks s) → coll_inv (tasks (UpdateTask e c s).2).
Proof.
  intros Hinv. unfold UpdateTask.
  destruct (ObjectIDFromHex (Param c "id")) as [err|oid]; [done|].
  unfold bind, BindJSON, ret. destruct (Bound c) as [err|task]; [done|].
  destruct (decide (Title task = "")); [done|].
  destruct (decide (String.length (Title task) < 5)%nat); [done|].
  unfold driver, UpdateOne. destruct (fault e); [done|].
  destruct (tasks s !! oid) as [d|] eqn:Hd; [|done].
  case_decide; [|done].
  rewrite decide_False by done. cbn [snd tasks].
  rewrite Task_MarshalBSON_fields.
  destruct (Hinv _ _ Hd) as [Hid Hlay].
  apply coll_inv_insert; [done..|]. apply stored_layout_update; [lia|done].
Qed.

Lemma DeleteTask_inv e c s :
  coll_inv (tasks s) → coll_inv (tasks (DeleteTask e c s).2).
Proof.
  intros Hinv. unfold DeleteTask.
  destruct (ObjectIDFromHex (Param c "id")) as [err|oid]; [done|].
  unfold bind, driver, DeleteOne. destruct (fault e); [done|].
  destruct (tasks s !! oid) as [d|] eqn:Hd; [|done].
  cbn. by apply coll_inv_delete.
Qed.

Lemma GetTasks_tasks e c s : tasks (GetTasks e c s).2 = tasks s.
Proof.
  unfold GetTasks, bind, driver, readonly.
  destruct (Find e (tasks s)) as [err|cursor]; [done|]. cbn [tasks calls writer].
  by destruct (All e cursor).
Qed.

Lemma GetSpecificTask_tasks e c s : tasks (GetSpecificTask e c s).2 = tasks s.
Proof.
  unfold GetSpecificTask.
  destruct (ObjectIDFromHex (Param c "id")) as [err|oid]; [done|].
  unfold bind, driver, readonly.
  destruct (FindOne e oid (tasks s)) as [err|doc]; cbn [Decode]; [done|].
  by destruct (Task_UnmarshalBSON doc).
Qed.

Lemma ServeHTTP_inv e req wd :
  NewObjectID e ≠ NilObjectID →
  coll_inv (collection wd) → coll_inv (collection (ServeHTTP e req wd).1).
Proof.
  intros He Hinv.
  destruct (SetupRoutes (method req) (path req)) as [[h params]|] eqn:Hr;
    [|by rewrite (proj1 (ServeHTTP_unrouted e req wd Hr))].
  rewrite (ServeHTTP_routed e req wd h params Hr). cbn [fst collection].
  destruct (SetupRoutes_cases _ _ _ _ Hr)
    as [(_ & _ & ->) | [(_ & _ & ->) | [(_ & _ & ->)
        | (id & _ & _ & _ & [(_ & ->) | [(_ & ->) | (_ & ->)]])]]].
  - done.
  - by apply CreateTask_inv.
  - by rewrite GetTasks_tasks.
  - by rewrite GetSpecificTask_tasks.
  - by apply UpdateTask_inv.
  - by apply DeleteTask_inv.
Qed.

Lemma reachable_coll_inv wd : reachable wd → coll_inv (collection wd).
Proof. induction 1; auto using coll_inv_empty, ServeHTTP_inv. Qed.

(** *** After any sequence of requests *)

Lemma stored_layout_persisted d : stored_layout d → persisted_layout d.
Proof.
  intros (Ht & Hc & _). split; [exact Ht|].
  destruct Hc as [Hc | Hc]; [by left | right; eauto].
Qed.

Lemma InsertOne_marshalled e t coll id coll' :
  InsertOne e (Task_MarshalBSON t) coll = inr (id, coll') →
  id = InsertedID e t ∧ coll' = <[id := Task_fields t]> coll.
Proof.
  unfold InsertOne, InsertedID. destruct (fault e); [done|].
  rewrite Task_MarshalBSON_id, Task_MarshalBSON_fields.
  destruct (IsZero (ID t));
    match goal with |- context [coll !! ?k] => destruct (coll !! k) end;
    by intros [= <- <-].
Qed.

Lemma DeleteTask_lookup e c s k d :
  tasks (DeleteTask e c s).2 !! k = Some d → tasks s !! k = Some d.
Proof.
  unfold DeleteTask.
  destruct (ObjectIDFromHex (Param c "id")) as [err|oid]; [done|].
  unfold bind, driver, DeleteOne. destruct (fault e); [done|].
  destruct (tasks s !! oid) as [d'|] eqn:Hd; [|done].
  rewrite decide_False by done. cbn. by intros [_ ?]%lookup_delete_Some.
Qed.

(** A record found after a request was there before, or the request is a
    create and the record sits under the id that create inserts at. *)
Lemma ServeHTTP_new_key e req wd k :
  is_Some (collection (ServeHTTP e req wd).1 !! k) →
  is_Some (collection wd !! k)
  ∨ ∃ task, req = POST_tasks (inr task) ∧ k = InsertedID e task.
Proof.
  destruct (SetupRoutes (method req) (path req)) as [[h params]|] eqn:Hr;
    [|rewrite (proj1 (ServeHTTP_unrouted e req wd Hr)); by left].
  destruct req as [m p b]. cbn [method path] in Hr.
  destruct (SetupRoutes_cases _ _ _ _ Hr)
    as [(-> & -> & ->) | [(-> & -> & ->) | [(-> & -> & ->)
        | (id & Hid & -> & -> & [(-> & ->) | [(-> & ->) | (-> & ->)]])]]].
  - rewrite (ServeHTTP_routed e (mkRequest _ _ b) wd _ _ Hr). by left.
  - change (mkRequest POST ["tasks"] b) with (POST_tasks b).
    destruct b as [err|task].
    { rewrite create_malformed_body_is_400. by left. }
    rewrite serve_create.
    destruct (decide (String.length (Title task) < 5)%nat) as [Hlt|Hge].
    { rewrite CreateTask_short_title by done. by left. }
    rewrite CreateTask_validated by lia. cbn zeta. cbn [tasks calls writer].
    destruct (InsertOne e _ (collection wd)) as [err|[id coll]] eqn:Hins; [by left|].
    apply InsertOne_marshalled in Hins as [Hid Hcoll]. subst id coll. cbn.
    intros [<- | [_ ?]]%lookup_insert_is_Some; [right|by left].
    exists task. done.
  - rewrite (ServeHTTP_routed e (mkRequest _ _ b) wd _ _ Hr). cbn [fst collection].
    rewrite GetTasks_tasks. by left.
  - rewrite (ServeHTTP_routed e (mkRequest _ _ b) wd _ _ Hr). cbn [fst collection].
    rewrite GetSpecificTask_tasks. by left.
  - change (mkRequest PUT ["tasks"; id] b) with (PUT_tasks_id id b).
    intros Hk%elem_of_dom. rewrite update_keeps_keys in Hk.
    left. by apply elem_of_dom.
  - rewrite (ServeHTTP_routed e (mkRequest _ _ b) wd _ _ Hr). cbn [fst collection].
    intros [d Hd]. left. exists d. by apply DeleteTask_lookup in Hd.
Qed.

Lemma serve_all_provenance trace wd k :
  is_Some (collection (serve_all trace wd) !! k) →
  is_Some (collection wd !! k)
  ∨ ∃ e task, (e, POST_tasks (inr task)) ∈ trace ∧ k = InsertedID e task.
Proof.
  revert wd. induction trace as [|[e req] rest IH]; intros wd Hk; [by left|].
  cbn [serve_all] in Hk. destruct (IH _ Hk) as [Hk' | (e' & task & Hin & ->)].
  - destruct (ServeHTTP_new_key e req wd k Hk') as [? | (task & -> & ->)]; [by left|].
    right. exists e, task. split; [apply list_elem_of_here | done].
  - right. exists e', task. split; [by apply list_elem_of_further | done].
Qed.

Lemma serve_all_reachable trace wd :
  reachable wd →
  Forall (λ er, NewObjectID er.1 ≠ NilObjectID) trace →
  reachable (serve_all trace wd).
Proof.
  revert wd. induction trace as [|[e req] rest IH]; intros wd Hwd Hall; [done|].
  apply Forall_cons in Hall as [He Hrest]. cbn [serve_all].
  apply IH; [|done]. by apply reachable_serve.
Qed.

(** C8 (as the code has it).  After any sequence of requests served from the
    empty collection, every stored document has a non-zero id, which is the
    id of some create request of the sequence: the one the driver generated
    for it when its body carried none, and the id of the body otherwise; a
    string [title] of at least 5 bytes; and a [completed] field that is
    either absent or a boolean. *)
Theorem stored_documents_after_any_requests trace k d :
  Forall (λ er, NewObjectID er.1 ≠ NilObjectID) trace →
  collection (serve_all trace emptyWorld) !! k = Some d →
  k ≠ NilObjectID
  ∧ (∃ e task, (e, POST_tasks (inr task)) ∈ trace
               ∧ ((ID task = NilObjectID ∧ k = NewObjectID e)
                  ∨ (ID task ≠ NilObjectID ∧ k = ID task)))
  ∧ persisted_layout d.
Proof.
  intros Hall Hd.
  pose proof (serve_all_reachable trace emptyWorld reachable_empty Hall) as Hreach.
  destruct (reachable_coll_inv _ Hreach k d Hd) as [Hk Hlay].
  split; [exact Hk|]. split; [|by apply stored_layout_persisted].
  destruct (serve_all_provenance trace emptyWorld k) as [[? Hnone] | (e & task & Hin & ->)].
  - eauto.
  - unfold emptyWorld in Hnone. cbn [collection] in Hnone.
    rewrite lookup_empty in Hnone. discriminate Hnone.
  - exists e, task. split; [exact Hin|]. unfold InsertedID.
    destruct (IsZero (ID task)) eqn:Hz.
    + left. split; [by apply N.eqb_eq in Hz | done].
    + right. split; [by apply IsZero_false | done].
Qed.

Lemma stored_documents_after_any_requests_witness :
  let trace := [(quiet oid1, POST_tasks (inr buy_milk));
                (quiet 8%N, PUT_tasks_id oid1_hex (inr (mkTask NilObjectID "New title!" true)))] in
  oid1 ≠ NilObjectID
  ∧ (∃ e task, (e, POST_tasks (inr task)) ∈ trace
               ∧ ((ID task = NilObjectID ∧ oid1 = NewObjectID e)
                  ∨ (ID task ≠ NilObjectID ∧ oid1 = ID task)))
  ∧ persisted_layout (<["title" := VString "New title!"]> {["completed" := VBool true]}).
Proof.
  cbn zeta.
  apply (stored_documents_after_any_requests
           [(quiet oid1, POST_tasks (inr buy_milk));
            (quiet 8%N, PUT_tasks_id oid1_hex (inr (mkTask NilObjectID "New title!" true)))]
           oid1).
  - repeat constructor; discriminate.
  - vm_compute. reflexivity.
Defined.

(** C8 as stated fails in three places.  After one create from the empty
    collection the stored document has no [completed] field at all; a create
    whose body carries an id stores the record under that id, not under the
    one the driver would generate; and a title of three characters is stored
    when it has five bytes. *)
Lemma stored_documents_differ_from_claim :
  (∃ d, collection (serve_all [(quiet oid1, POST_tasks (inr buy_milk))] emptyWorld)
          !! oid1 = Some d
        ∧ d !! "completed" = None
        ∧ ¬ full_layout d)
  ∧ (let wd := serve_all
                 [(quiet oid1, POST_tasks (inr (mkTask 7%N "Buy milk" false)))]
                 emptyWorld in
     is_Some (collection wd !! 7%N)
     ∧ collection wd !! NewObjectID (quiet oid1) = None)
  ∧ (∃ d, collection
            (serve_all
               [(quiet oid1,
                 POST_tasks (inr (mkTask NilObjectID three_characters false)))]
               emptyWorld) !! oid1 = Some d
          ∧ d !! "title" = Some (VString three_characters)
          ∧ characters three_characters = 3%nat).
Proof.
  split_and!.
  - exists {["title" := VString "Buy milk"]}. split; [reflexivity|].
    split; [reflexivity|]. intros (_ & b & Hb). discriminate Hb.
  - cbn zeta. split; [eexists; reflexivity | reflexivity].
  - exists {["title" := VString three_characters]}.
    split; [vm_compute; reflexivity|]. split; reflexivity.
Qed.

(** ** List *)

Lemma list_answered e wd :
  fault e = None →
  cursorFault e = None →
  ServeHTTP e GET_tasks wd
  = (mkWorld (collection wd) (driverLog wd ++ [CallFind; CallCursorAll]),
     mkWriter 200 true
       [PJSON [("tasks",
                ADocs ((λ kd, document kd.1 kd.2) <$> map_to_list (collection wd)))]]).
Proof.
  intros Hf Hc. rewrite serve_list. unfold GetTasks, bind, driver, readonly, Find, All.
  cbn [tasks calls writer]. rewrite Hf. cbn [tasks calls writer]. rewrite Hc.
  cbn. by rewrite <- (assoc_L (++)).
Qed.

Lemma document_rendering id d k :
  M_MarshalJSON (document id d) !! k
  = if decide (k = "_id") then Some (JString (Hex id))
    else Value_MarshalJSON <$> d !! k.
Proof.
  unfold M_MarshalJSON, document. rewrite lookup_fmap.
  case_decide as Hk.
  - subst k. by rewrite lookup_insert_eq.
  - by rewrite lookup_insert_ne.
Qed.

Lemma stored_layout_rendering id d :
  stored_layout d → DocumentShape (M_MarshalJSON (document id d)).
Proof.
  intros ((t & Ht & _) & Hc & Ho). repeat split.
  - exists (Hex id). by rewrite document_rendering.
  - exists t. by rewrite document_rendering, decide_False, Ht.
  - rewrite document_rendering, decide_False by done.
    destruct Hc as [-> | ->]; auto.
  - intros k Hid Ht' Hc'. rewrite document_rendering, decide_False by done.
    by rewrite Ho.
Qed.

(** The two shapes exclude each other: a rendered document has no member
    [id]. *)
Lemma DocumentShape_not_TaskShape o : DocumentShape o → ¬ TaskShape o.
Proof.
  intros (_ & _ & _ & Ho) (i & t & c & ->).
  specialize (Ho "id"). rewrite lookup_insert_eq in Ho.
  by discriminate Ho.
Qed.

(** What a list request returns when the store answers: status 200 and,
    under the key [tasks], every stored document exactly once, each rendered
    with the field names of the stored document. *)
Lemma list_returns_every_document e wd :
  reachable wd →
  fault e = None →
  cursorFault e = None →
  ∃ docs,
    (ServeHTTP e GET_tasks wd).2 = mkWriter 200 true [PJSON [("tasks", ADocs docs)]]
    ∧ (∀ m, m ∈ docs ↔ ∃ id d, collection wd !! id = Some d ∧ m = document id d)
    ∧ length docs = size (collection wd)
    ∧ (∀ m, m ∈ docs → DocumentShape (M_MarshalJSON m)).
Proof.
  intros Hreach Hf Hc. eexists. rewrite list_answered by done.
  split; [reflexivity|].
  assert (∀ m, m ∈ (λ kd, document kd.1 kd.2) <$> map_to_list (collection wd)
               ↔ ∃ id d, collection wd !! id = Some d ∧ m = document id d) as Hmem.
  { intros m. rewrite list_elem_of_fmap. split.
    - intros ([id d] & -> & Hin%elem_of_map_to_list). eauto.
    - intros (id & d & Hd & ->). exists (id, d). by rewrite elem_of_map_to_list. }
  split; [exact Hmem|]. split.
  - by rewrite length_fmap, length_map_to_list.
  - intros m (id & d & Hd & ->)%Hmem.
    apply stored_layout_rendering. by apply (reachable_coll_inv wd Hreach id d).
Qed.

(** When draining the cursor fails, the list request is answered 500 with
    that error, after both driver calls. *)
Lemma list_cursor_error e wd err :
  fault e = None →
  cursorFault e = Some err →
  ServeHTTP e GET_tasks wd
  = (mkWorld (collection wd) (driverLog wd ++ [CallFind; CallCursorAll]),
     mkWriter 500 true [PJSON [("error", AString (Error err))]]).
Proof.
  intros Hf Hc. rewrite serve_list. unfold GetTasks, bind, driver, readonly, Find, All.
  cbn [tasks calls writer]. rewrite Hf. cbn [tasks calls writer]. rewrite Hc.
  cbn. by rewrite <- (assoc_L (++)).
Qed.

(** C9 at [GET /tasks] after [POST /tasks {"title":"Buy milk"}]: the list
    renders the record as the raw document, with the members [_id] and
    [title] only, which is not the Task JSON shape; get-by-id renders the
    same record through the [Task] struct, with the members [id], [title]
    and [completed]. *)
Theorem list_renders_raw_document_unlike_get :
  let wd := (ServeHTTP (quiet oid1) (POST_tasks (inr buy_milk)) emptyWorld).1 in
  (∃ m, (ServeHTTP (quiet oid1) GET_tasks wd).2
        = mkWriter 200 true [PJSON [("tasks", ADocs [m])]]
        ∧ M_MarshalJSON m
          = <["_id" := JString oid1_hex]> (<["title" := JString "Buy milk"]> ∅)
        ∧ ¬ TaskShape (M_MarshalJSON m))
  ∧ (∃ t, (ServeHTTP (quiet oid1) (GET_tasks_id oid1_hex) wd).2
          = mkWriter 200 true [PJSON [("task", ATask t)]]
          ∧ Task_MarshalJSON t
            = <["id" := JString oid1_hex]>
                (<["title" := JString "Buy milk"]> (<["completed" := JBool false]> ∅))
          ∧ TaskShape (Task_MarshalJSON t)).
Proof.
  cbn zeta. split.
  - exists (document oid1 {["title" := VString "Buy milk"]}).
    split; [vm_compute; reflexivity|]. split; [vm_compute; reflexivity|].
    apply DocumentShape_not_TaskShape, stored_layout_rendering.
    apply (stored_layout_fields buy_milk). cbn. lia.
  - exists (mkTask oid1 "Buy milk" false).
    split; [vm_compute; reflexivity|]. split; [vm_compute; reflexivity|].
    by exists (Hex oid1), "Buy milk", false.
Qed.

(** ** Where the handlers part from the documented behaviour *)

(** C2 at [GET /tasks/000000000000000000000000] on the empty collection: the
    lookup miss is answered 500 with the driver's "no documents" message,
    while update and delete of the same id are answered 404. *)
Theorem get_of_unused_id_is_500 :
  (ServeHTTP (quiet oid1) (GET_tasks_id nil_hex) emptyWorld).2
  = mkWriter 500 true [PJSON [("error", AString "mongo: no documents in result")]]
  ∧ (ServeHTTP (quiet oid1) (PUT_tasks_id nil_hex (inr buy_milk)) emptyWorld).2
    = mkWriter 404 true [PJSON [("message", AString "Task not found")]]
  ∧ (ServeHTTP (quiet oid1) (DELETE_tasks_id nil_hex) emptyWorld).2
    = mkWriter 404 true [PJSON [("message", AString "Task not found")]].
Proof.
  split; [|split].
  - by rewrite (get_missing _ _ nil_hex NilObjectID).
  - rewrite (update_missing _ _ nil_hex NilObjectID); [done..| |done].
    cbn. lia.
  - by rewrite (delete_missing _ _ nil_hex NilObjectID).
Qed.

(** C3 at [POST /tasks {"title":"Buy milk"}] on the empty collection, the
    driver generating the id [oid1]: the record is stored under [oid1], and
    the task of the 201 response carries the zero id, rendered
    "000000000000000000000000". *)
Theorem created_task_is_returned_with_zero_id :
  let r := ServeHTTP (quiet oid1) (POST_tasks (inr buy_milk)) emptyWorld in
  r.2 = mkWriter 201 true
          [PJSON [("message", AString "Task created");
                  ("task", ATask (mkTask NilObjectID "Buy milk" false))]]
  ∧ Task_MarshalJSON (mkTask NilObjectID "Buy milk" false) !! "id"
    = Some (JString nil_hex)
  ∧ collection r.1 = {[oid1 := {["title" := VString "Buy milk"]}]}
  ∧ oid1 ≠ NilObjectID.
Proof.
  cbn zeta. rewrite (create_accepted (quiet oid1) emptyWorld buy_milk).
  - repeat split; done.
  - cbn. lia.
  - split; reflexivity.
Qed.

(** The same for every accepted create whose body has no id: the response
    carries the zero id, the record is stored under the generated one. *)
Lemma created_task_id_not_returned e wd task :
  (5 ≤ String.length (Title task))%nat →
  accepts_insert e task (collection wd) →
  ID task = NilObjectID →
  NewObjectID e ≠ NilObjectID →
  let r := ServeHTTP e (POST_tasks (inr task)) wd in
  r.2 = mkWriter 201 true
          [PJSON [("message", AString "Task created");
                  ("task", ATask (mkTask NilObjectID (Title task) false))]]
  ∧ collection r.1 !! NewObjectID e = Some {["title" := VString (Title task)]}
  ∧ collection r.1 !! NilObjectID = collection wd !! NilObjectID.
Proof.
  intros Hlen Hacc Hid Hnew. cbn zeta. rewrite create_accepted by done.
  unfold InsertedID, setCompleted. rewrite Hid. cbn.
  split; [done|]. split.
  - by rewrite lookup_insert_eq.
  - by rewrite lookup_insert_ne.
Qed.

(** C5 on a task that was created, then completed, then sent back with
    [completed = false]: the third request is answered 200 "Task updated",
    yet the stored document still says [completed = true], and so does a
    following get. *)
Theorem update_does_not_persist_completed_false :
  let created := (ServeHTTP (quiet oid1) (POST_tasks (inr buy_milk)) emptyWorld).1 in
  let done_ :=
    (ServeHTTP (quiet 1%N)
       (PUT_tasks_id oid1_hex (inr (mkTask NilObjectID "Buy milk" true))) created).1 in
  let r :=
    ServeHTTP (quiet 2%N)
      (PUT_tasks_id oid1_hex (inr (mkTask NilObjectID "Buy milk" false))) done_ in
  collection done_
  = {[oid1 := <["title" := VString "Buy milk"]> {["completed" := VBool true]}]}
  ∧ r.2 = mkWriter 200 true [PJSON [("message", AString "Task updated")]]
  ∧ collection r.1 = collection done_
  ∧ (ServeHTTP (quiet 3%N) (GET_tasks_id oid1_hex) r.1).2
    = mkWriter 200 true [PJSON [("task", ATask (mkTask oid1 "Buy milk" true))]].
Proof. vm_compute. repeat split; reflexivity. Qed.

(** In general: an update with [completed = false] that matches leaves the
    stored [completed] field as it was. *)
Lemma update_false_keeps_completed e wd id oid task d :
  ObjectIDFromHex id = inr oid →
  fault e = None →
  (5 ≤ String.length (Title task))%nat →
  collection wd !! oid = Some d →
  ID task = NilObjectID ∨ ID task = oid →
  Completed task = false →
  ∃ d', collection (ServeHTTP e (PUT_tasks_id id (inr task)) wd).1 !! oid = Some d'
        ∧ d' !! "completed" = d !! "completed".
Proof.
  intros Hid Hf Hlen Hd Hbody Hc.
  rewrite (update_existing e wd id oid task d) by done. cbn.
  eexists. split; [apply lookup_insert_eq|].
  by rewrite updated_completed, Hc.
Qed.

(** What does hold of a matching update: 200, the new title, [completed]
    raised to [true] when the body says so, every other record untouched. *)
Lemma update_persists_title_and_true e wd id oid task d :
  ObjectIDFromHex id = inr oid →
  fault e = None →
  (5 ≤ String.length (Title task))%nat →
  collection wd !! oid = Some d →
  ID task = NilObjectID ∨ ID task = oid →
  let r := ServeHTTP e (PUT_tasks_id id (inr task)) wd in
  r.2 = mkWriter 200 true [PJSON [("message", AString "Task updated")]]
  ∧ (∃ d', collection r.1 !! oid = Some d'
           ∧ d' !! "title" = Some (VString (Title task))
           ∧ (Completed task = true → d' !! "completed" = Some (VBool true)))
  ∧ (∀ k, k ≠ oid → collection r.1 !! k = collection wd !! k).
Proof.
  intros Hid Hf Hlen Hd Hbody. cbn zeta.
  rewrite (update_existing e wd id oid task d) by done. cbn.
  split; [done|]. split.
  - eexists. split; [apply lookup_insert_eq|]. split; [apply updated_title|].
    intros Hc. by rewrite updated_completed, Hc.
  - intros k Hk. by rewrite lookup_insert_ne.
Qed.

(** ** Start-up *)

Lemma Getenv_absent (environ : gmap string string) key :
  environ !! key = None → os.Getenv environ key = "".
Proof. intros Hk. unfold os.Getenv. by rewrite Hk. Qed.

Lemma SetUpDatabase_without_uri environ net :
  os.Getenv environ "MONGO_URI" = "" →
  SetUpDatabase environ net = (inl (errorString "MONGO_URI not set"), []).
Proof. intros Huri. unfold SetUpDatabase. by rewrite Huri. Qed.

(** [godotenv.Load] does not bring in a variable that neither the
    environment nor the [.env] file sets. *)
Lemma init_keeps_absent (environ : gmap string string) dotenv key :
  environ !! key = None →
  (∀ vars, dotenv = Some vars → vars !! key = None) →
  (init environ dotenv).1 !! key = None.
Proof.
  intros Hk Hfile. destruct dotenv as [vars|]; cbn; [|done].
  apply lookup_union_None_2; auto.
Qed.

(** C10.  When [MONGO_URI] is not in the environment [main] starts with,
    [SetUpDatabase] returns the error "MONGO_URI not set", and [main] prints
    it and returns: it registers no route and starts no server. *)
Theorem main_without_MONGO_URI_does_not_serve (environ : gmap string string) net :
  environ !! "MONGO_URI" = None →
  (SetUpDatabase environ net).1 = inl (errorString "MONGO_URI not set")
  ∧ main environ net = [EvGinDefault; EvPrint "MONGO_URI not set"]
  ∧ ¬ serves (main environ net).
Proof.
  intros Habs. apply Getenv_absent in Habs.
  unfold main. rewrite SetUpDatabase_without_uri by done. cbn.
  split; [done|]. split; [done|].
  intros [Hroutes | [addr Hrun]].
  - apply elem_of_cons in Hroutes as [?|Hroutes]; [done|].
    apply elem_of_cons in Hroutes as [?|Hroutes]; [done|].
    by apply elem_of_nil in Hroutes.
  - apply elem_of_cons in Hrun as [?|Hrun]; [done|].
    apply elem_of_cons in Hrun as [?|Hrun]; [done|].
    by apply elem_of_nil in Hrun.
Qed.

Lemma main_without_MONGO_URI_does_not_serve_witness :
  let net := mkNetwork (λ _, None) (λ _, None) None in
  (SetUpDatabase ∅ net).1 = inl (errorString "MONGO_URI not set")
  ∧ main ∅ net = [EvGinDefault; EvPrint "MONGO_URI not set"]
  ∧ ¬ serves (main ∅ net).
Proof.
  apply (main_without_MONGO_URI_does_not_serve ∅ (mkNetwork (λ _, None) (λ _, None) None)).
  reflexivity.
Defined.

(** With the variable set and the store answering, [main] does serve. *)
Example main_with_MONGO_URI_serves :
  serves (main {["MONGO_URI" := "mongodb://localhost:27017"]}
            (mkNetwork (λ _, None) (λ _, None) None)).
Proof. left. vm_compute. apply list_elem_of_In. cbn. tauto. Qed.

(* ===================================================================== *)
(** * Further properties of the handlers *)
(* ===================================================================== *)

(** ** Every handler run is orderly *)

Lemma status_in_use code :
  code = 200 ∨ code = 201 ∨ code = 400 ∨ code = 404 ∨ code = 422 ∨ code = 500 →
  code ∈ handler_statuses.
Proof.
  intros H. apply list_elem_of_In. unfold handler_statuses. cbn.
  destruct H as [->|[->|[->|[->|[->| ->]]]]]; tauto.
Qed.

Ltac orderly_with l :=
  eexists _, _, l; cbn;
  split; [reflexivity|];
  split; [apply status_in_use; tauto|];
  split; [first [reflexivity | by rewrite app_nil_r | by rewrite <- (assoc_L (++))]|];
  split; [first [left; cbn; lia | by right]|];
  split; [try done|];
  split; [try done|];
  let Hx := fresh "Hx" in
  intros ? Hx; first [congruence | split; [try done|]; first [done | intros _; split; [reflexivity | congruence]]].

Lemma CreateTask_orderly e c s :
  writer s = newWriter → orderly e false s (CreateTask e c s).2.
Proof.
  intros Hw. destruct c as [params [err|task]].
  - unfold CreateTask, bind. rewrite (BindJSON_error _ err) by done.
    unfold throwError, JSON, onWriter. cbn [writer tasks calls snd].
    rewrite decide_False by done. rewrite Hw, Render_after_abort by done.
    orderly_with (@nil Call).
  - destruct (decide (String.length (Title task) < 5)%nat) as [Hlt|Hge].
    { rewrite CreateTask_short_title by done. rewrite Hw.
      orderly_with (@nil Call). }
    rewrite CreateTask_validated by lia. cbn zeta. rewrite Hw.
    unfold InsertOne. destruct (fault e) as [err|] eqn:Hf.
    { orderly_with [CallInsertOne (Task_MarshalBSON (setCompleted false task))]. }
    match goal with |- context [tasks s !! ?k] => destruct (tasks s !! k) end.
    + orderly_with [CallInsertOne (Task_MarshalBSON (setCompleted false task))].
    + orderly_with [CallInsertOne (Task_MarshalBSON (setCompleted false task))].
Qed.

Lemma GetTasks_orderly e c s :
  writer s = newWriter → orderly e true s (GetTasks e c s).2.
Proof.
  intros Hw. unfold GetTasks, bind, driver, readonly, Find, All. rewrite Hw.
  destruct (fault e) as [err|] eqn:Hf; [orderly_with [CallFind]|].
  cbn [tasks calls writer].
  destruct (cursorFault e) as [err|]; orderly_with [CallFind; CallCursorAll].
Qed.

Lemma GetSpecificTask_orderly e c s :
  writer s = newWriter → orderly e true s (GetSpecificTask e c s).2.
Proof.
  intros Hw. unfold GetSpecificTask.
  destruct (ObjectIDFromHex (Param c "id")) as [err|oid].
  { unfold throwError, JSON, onWriter. rewrite Hw. orderly_with (@nil Call). }
  unfold bind, driver, readonly, FindOne. rewrite Hw.
  destruct (fault e) as [err|] eqn:Hf; [orderly_with [CallFindOne oid]|].
  destruct (tasks s !! oid) as [d|]; cbn [Decode]; [|orderly_with [CallFindOne oid]].
  destruct (Task_UnmarshalBSON (document oid d)); orderly_with [CallFindOne oid].
Qed.

Lemma UpdateTask_orderly e c s :
  writer s = newWriter → orderly e false s (UpdateTask e c s).2.
Proof.
  intros Hw. unfold UpdateTask.
  destruct (ObjectIDFromHex (Param c "id")) as [err|oid].
  { unfold throwError, JSON, onWriter. rewrite Hw. orderly_with (@nil Call). }
  unfold bind. destruct (Bound c) as [err|task] eqn:Hb.
  { rewrite (BindJSON_error _ err) by done.
    unfold throwError, JSON, onWriter. cbn [writer tasks calls snd].
    rewrite decide_False by done. rewrite Hw, Render_after_abort by done.
    orderly_with (@nil Call). }
  unfold BindJSON, ret. rewrite Hb.
  destruct (decide (Title task = "")).
  { unfold JSON, onWriter. rewrite Hw. orderly_with (@nil Call). }
  destruct (decide (String.length (Title task) < 5)%nat).
  { unfold JSON, onWriter. rewrite Hw. orderly_with (@nil Call). }
  unfold driver, UpdateOne. rewrite Hw.
  destruct (fault e) as [err|] eqn:Hf;
    [orderly_with [CallUpdateOne oid (Task_MarshalBSON task)]|].
  destruct (tasks s !! oid) as [d|];
    [|orderly_with [CallUpdateOne oid (Task_MarshalBSON task)]].
  case_decide; [rewrite decide_False by done|];
    orderly_with [CallUpdateOne oid (Task_MarshalBSON task)].
Qed.

Lemma DeleteTask_orderly e c s :
  writer s = newWriter → orderly e false s (DeleteTask e c s).2.
Proof.
  intros Hw. unfold DeleteTask.
  destruct (ObjectIDFromHex (Param c "id")) as [err|oid].
  { unfold throwError, JSON, onWriter. rewrite Hw. orderly_with (@nil Call). }
  unfold bind, driver, DeleteOne. rewrite Hw.
  destruct (fault e) as [err|] eqn:Hf; [orderly_with [CallDeleteOne oid]|].
  destruct (tasks s !! oid) as [d|]; orderly_with [CallDeleteOne oid].
Qed.

(** The same, for the router: whatever the request that has a route. *)
Lemma ServeHTTP_orderly e req wd :
  is_Some (SetupRoutes (method req) (path req)) →
  orderly e (bool_decide (method req = GET))
    (mkState (collection wd) (driverLog wd) newWriter)
    (let r := ServeHTTP e req wd in mkState (collection r.1) (driverLog r.1) r.2).
Proof.
  intros [[h params] Hr]. cbn zeta.
  assert (∀ s s', orderly e true s s' → ∀ b, orderly e b s s') as Hweak.
  { intros s s' (code & p & l & ? & ? & ? & ? & ? & Hro & ?) b.
    exists code, p, l. split_and!; try done. intros _. by apply Hro. }
  rewrite (ServeHTTP_routed e req wd h params Hr). cbn [fst snd collection driverLog].
  match goal with |- orderly _ _ _ ?s' => destruct s' eqn:Hs end. rewrite <- Hs.
  destruct (SetupRoutes_cases _ _ _ _ Hr)
    as [(_ & _ & ->) | [(-> & _ & ->) | [(_ & _ & ->)
        | (id & _ & _ & _ & [(_ & ->) | [(-> & ->) | (-> & ->)]])]]].
  - apply Hweak. orderly_with (@nil Call).
  - by apply CreateTask_orderly.
  - by apply Hweak, GetTasks_orderly.
  - by apply Hweak, GetSpecificTask_orderly.
  - by apply UpdateTask_orderly.
  - by apply DeleteTask_orderly.
Qed.

(** ** What every request has in common *)

(** X1.  Every request that has a route is answered with exactly one
    payload, the header sent, under one of the status codes 200, 201, 400,
    404, 422 and 500. *)
Theorem every_routed_request_gets_one_answer e req wd :
  is_Some (SetupRoutes (method req) (path req)) →
  ∃ code p,
    (ServeHTTP e req wd).2 = mkWriter code true [p] ∧ code ∈ handler_statuses.
Proof.
  intros Hr.
  destruct (ServeHTTP_orderly e req wd Hr) as (code & p & l & Hw & Hcode & _).
  exists code, p. split; [exact Hw | exact Hcode].
Qed.

Lemma every_routed_request_gets_one_answer_witness :
  ∃ code p,
    (ServeHTTP (quiet oid1) (DELETE_tasks_id nil_hex) emptyWorld).2
    = mkWriter code true [p] ∧ code ∈ handler_statuses.
Proof.
  apply (every_routed_request_gets_one_answer (quiet oid1) (DELETE_tasks_id nil_hex)
           emptyWorld).
  eexists. reflexivity.
Defined.

(** X2.  Serving a request makes at most one driver call, except that a list
    request whose [Find] succeeded makes two, [Find] and then [cursor.All]:
    the call log is the old one with nothing, one call, or these two
    appended. *)
Theorem driver_calls_of_one_request e req wd :
  ∃ l, driverLog (ServeHTTP e req wd).1 = driverLog wd ++ l
       ∧ ((length l ≤ 1)%nat ∨ l = [CallFind; CallCursorAll]).
Proof.
  destruct (SetupRoutes (method req) (path req)) as [hp|] eqn:Hr.
  - destruct (ServeHTTP_orderly e req wd (mk_is_Some _ _ Hr))
      as (code & p & l & _ & _ & Hl & Hlen & _).
    exists l. split; [exact Hl | exact Hlen].
  - exists []. rewrite (proj1 (ServeHTTP_unrouted e req wd Hr)), app_nil_r.
    split; [done | left; cbn; lia].
Qed.

(** X3.  A request answered with a status other than 200 and 201 has not
    changed the collection. *)
Theorem error_answer_changes_nothing e req wd :
  Status (ServeHTTP e req wd).2 ≠ 200 →
  Status (ServeHTTP e req wd).2 ≠ 201 →
  collection (ServeHTTP e req wd).1 = collection wd.
Proof.
  destruct (SetupRoutes (method req) (path req)) as [hp|] eqn:Hr;
    [|by rewrite (proj1 (ServeHTTP_unrouted e req wd Hr))].
  destruct (ServeHTTP_orderly e req wd (mk_is_Some _ _ Hr))
    as (code & p & l & Hw & _ & _ & _ & Hkeep & _).
  cbn in Hw, Hkeep. rewrite Hw. cbn. exact Hkeep.
Qed.

Lemma error_answer_changes_nothing_witness :
  let wd := mkWorld {[7%N := Task_fields buy_milk]} [] in
  collection (ServeHTTP (quiet oid1) (DELETE_tasks_id oid1_hex) wd).1 = collection wd.
Proof.
  apply (error_answer_changes_nothing (quiet oid1) (DELETE_tasks_id oid1_hex)
           (mkWorld {[7%N := Task_fields buy_milk]} [])).
  - vm_compute. discriminate.
  - vm_compute. discriminate.
Defined.

(** X4.  A GET request, whatever its path, does not change the
    collection. *)
Theorem GET_changes_nothing e req wd :
  method req = GET →
  collection (ServeHTTP e req wd).1 = collection wd.
Proof.
  intros Hget.
  destruct (SetupRoutes (method req) (path req)) as [hp|] eqn:Hr;
    [|by rewrite (proj1 (ServeHTTP_unrouted e req wd Hr))].
  destruct (ServeHTTP_orderly e req wd (mk_is_Some _ _ Hr))
    as (code & p & l & _ & _ & _ & _ & _ & Hro & _).
  apply Hro. by apply bool_decide_eq_true.
Qed.

Lemma GET_changes_nothing_witness :
  let wd := mkWorld {[7%N := Task_fields buy_milk]} [] in
  collection (ServeHTTP (quiet oid1) (GET_tasks_id "7") wd).1 = collection wd.
Proof.
  apply (GET_changes_nothing (quiet oid1) (GET_tasks_id "7")
           (mkWorld {[7%N := Task_fields buy_milk]} [])).
  reflexivity.
Defined.



(** ** Ids in hexadecimal *)

Lemma fromHexChar_digitOf n :
  (n < 16)%N → fromHexChar (digitOf lowerhex n) = Some n.
Proof.
  intros Hn.
  assert (n = 0 ∨ n = 1 ∨ n = 2 ∨ n = 3 ∨ n = 4 ∨ n = 5 ∨ n = 6 ∨ n = 7
          ∨ n = 8 ∨ n = 9 ∨ n = 10 ∨ n = 11 ∨ n = 12 ∨ n = 13 ∨ n = 14
          ∨ n = 15)%N as Hcases by lia.
  repeat (destruct Hcases as [-> | Hcases]; [reflexivity|]).
  by subst n.
Qed.

Lemma decodeHex_encodeHex k v acc a :
  decodeHex (encodeHex k v acc) a
  = decodeHex acc (a * 16 ^ N.of_nat k + v mod 16 ^ N.of_nat k)%N.
Proof.
  revert v acc a. induction k as [|k IH]; intros v acc a.
  - cbn [encodeHex]. change (16 ^ N.of_nat 0)%N with 1%N.
    rewrite N.mod_1_r. f_equal. lia.
  - cbn [encodeHex]. rewrite IH. cbn [decodeHex].
    rewrite fromHexChar_digitOf by (apply N.mod_lt; lia).
    f_equal. rewrite Nat2N.inj_succ, N.pow_succ_r'.
    rewrite (N.Div0.mod_mul_r v 16 (16 ^ N.of_nat k)). lia.
Qed.

Lemma length_encodeHex k v acc :
  String.length (encodeHex k v acc) = (k + String.length acc)%nat.
Proof.
  revert v acc. induction k as [|k IH]; intros v acc; cbn [encodeHex]; [done|].
  rewrite IH. cbn. lia.
Qed.

Lemma ObjectIDFromHex_Hex id :
  (id < ObjectID_limit)%N → ObjectIDFromHex (Hex id) = inr id.
Proof.
  intros Hid. unfold ObjectIDFromHex, Hex.
  rewrite decide_True by (by rewrite length_encodeHex).
  rewrite decodeHex_encodeHex. cbn [decodeHex].
  f_equal. rewrite N.mul_0_l, N.add_0_l. by apply N.mod_small.
Qed.

Lemma Hex_nonempty id : Hex id ≠ "".
Proof.
  intros Heq. assert (String.length (Hex id) = 24%nat) as Hlen
    by (unfold Hex; by rewrite length_encodeHex).
  rewrite Heq in Hlen. discriminate Hlen.
Qed.

(** ** Reading a record back *)

Lemma decode_stored_document oid d :
  stored_layout d → Task_UnmarshalBSON (document oid d) = inr (Task_of oid d).
Proof.
  intros ((t & Ht & _) & Hc & _). unfold Task_UnmarshalBSON, Task_of, document.
  rewrite lookup_insert_eq, !lookup_insert_ne by done. rewrite Ht.
  by destruct Hc as [-> | ->].
Qed.

Lemma get_stored e wd id oid d t :
  ObjectIDFromHex id = inr oid →
  fault e = None →
  collection wd !! oid = Some d →
  Task_UnmarshalBSON (document oid d) = inr t →
  ServeHTTP e (GET_tasks_id id) wd
  = (mkWorld (collection wd) (driverLog wd ++ [CallFindOne oid]),
     mkWriter 200 true [PJSON [("task", ATask t)]]).
Proof.
  intros Hid Hf Hd Ht. rewrite serve_get by eauto using ObjectIDFromHex_nonempty.
  rewrite (GetSpecificTask_run _ _ oid) by done. cbn [tasks calls writer].
  unfold FindOne. rewrite Hf, Hd. cbn [Decode]. rewrite Ht. reflexivity.
Qed.

(** X6.  In a world reached through the API, a get-by-id of a stored record,
    the store answering, is answered 200 with the task read from the
    document: the id of the request, the stored title, and [completed] as
    stored ([false] when the document has no such field).  It makes the one
    call [FindOne] and leaves the collection as it is. *)
Theorem get_returns_the_stored_task e wd id oid d :
  reachable wd →
  fault e = None →
  ObjectIDFromHex id = inr oid →
  collection wd !! oid = Some d →
  ServeHTTP e (GET_tasks_id id) wd
  = (mkWorld (collection wd) (driverLog wd ++ [CallFindOne oid]),
     mkWriter 200 true [PJSON [("task", ATask (Task_of oid d))]]).
Proof.
  intros Hreach Hf Hid Hd.
  apply (get_stored e wd id oid d); [done..|].
  apply decode_stored_document. by apply (reachable_coll_inv wd Hreach oid d).
Qed.

Lemma get_returns_the_stored_task_witness :
  let wd := (ServeHTTP (quiet oid1) (POST_tasks (inr buy_milk)) emptyWorld).1 in
  ServeHTTP (quiet 9%N) (GET_tasks_id "65A1B2C3D4E5F60718293A4B") wd
  = (mkWorld (collection wd) (driverLog wd ++ [CallFindOne oid1]),
     mkWriter 200 true
       [PJSON [("task", ATask (Task_of oid1 {["title" := VString "Buy milk"]}))]]).
Proof.
  apply (get_returns_the_stored_task (quiet 9%N)
           (ServeHTTP (quiet oid1) (POST_tasks (inr buy_milk)) emptyWorld).1
           "65A1B2C3D4E5F60718293A4B" oid1 {["title" := VString "Buy milk"]}).
  - apply reachable_serve; [apply reachable_empty | done].
  - reflexivity.
  - reflexivity.
  - reflexivity.
Defined.

(** X7.  Round trip.  After a create that the store accepts, a get-by-id
    with the hex form of the id the record was stored under returns the
    submitted title and [completed = false], whatever [completed] the create
    request carried. *)
Theorem create_then_get_round_trip e1 e2 wd task :
  (5 ≤ String.length (Title task))%nat →
  accepts_insert e1 task (collection wd) →
  (InsertedID e1 task < ObjectID_limit)%N →
  fault e2 = None →
  let created := (ServeHTTP e1 (POST_tasks (inr task)) wd).1 in
  (ServeHTTP e2 (GET_tasks_id (Hex (InsertedID e1 task))) created).2
  = mkWriter 200 true
      [PJSON [("task", ATask (mkTask (InsertedID e1 task) (Title task) false))]].
Proof.
  intros Hlen Hacc Hlim Hf. cbn zeta. rewrite create_accepted by done.
  rewrite (get_stored e2 _ _ (InsertedID e1 task)
             (Task_fields (setCompleted false task))
             (mkTask (InsertedID e1 task) (Title task) false)).
  - reflexivity.
  - by apply ObjectIDFromHex_Hex.
  - exact Hf.
  - cbn. apply lookup_insert_eq.
  - rewrite decode_stored_document by (apply stored_layout_fields; cbn; lia).
    unfold Task_of. by rewrite Task_fields_title, Task_fields_completed.
Qed.

Lemma create_then_get_round_trip_witness :
  let created :=
    (ServeHTTP (quiet oid1) (POST_tasks (inr (mkTask NilObjectID "Buy milk" true)))
       emptyWorld).1 in
  (ServeHTTP (quiet 9%N) (GET_tasks_id (Hex oid1)) created).2
  = mkWriter 200 true [PJSON [("task", ATask (mkTask oid1 "Buy milk" false))]].
Proof.
  apply (create_then_get_round_trip (quiet oid1) (quiet 9%N) emptyWorld
           (mkTask NilObjectID "Buy milk" true)).
  - cbn. lia.
  - split; reflexivity.
  - reflexivity.
  - reflexivity.
Defined.

(** ** Update, continued *)

(** X8.  After an update that matches, a get-by-id of the same record
    returns the new title, and [completed] is [true] exactly when the body
    said [true] or the record was completed before. *)
Theorem update_then_get e1 e2 wd id oid task d :
  reachable wd →
  fault e1 = None →
  fault e2 = None →
  ObjectIDFromHex id = inr oid →
  (5 ≤ String.length (Title task))%nat →
  collection wd !! oid = Some d →
  ID task = NilObjectID ∨ ID task = oid →
  let updated := (ServeHTTP e1 (PUT_tasks_id id (inr task)) wd).1 in
  (ServeHTTP e2 (GET_tasks_id id) updated).2
  = mkWriter 200 true
      [PJSON [("task",
               ATask (mkTask oid (Title task)
                        (Completed task || Completed (Task_of oid d))))]].
Proof.
  intros Hreach Hf1 Hf2 Hid Hlen Hd Hbody. cbn zeta.
  rewrite (update_existing e1 wd id oid task d) by done.
  destruct (reachable_coll_inv wd Hreach oid d Hd) as [_ Hlay].
  rewrite (get_stored e2 _ id oid (Task_fields task ∪ d)
             (Task_of oid (Task_fields task ∪ d))).
  - cbn. unfold Task_of. rewrite updated_title, updated_completed.
    destruct (Completed task); [done|].
    destruct Hlay as (_ & [-> | ->] & _); done.
  - exact Hid.
  - exact Hf2.
  - cbn. apply lookup_insert_eq.
  - apply decode_stored_document. by apply stored_layout_update.
Qed.

Lemma update_then_get_witness :
  let wd := (ServeHTTP (quiet oid1) (POST_tasks (inr buy_milk)) emptyWorld).1 in
  let updated :=
    (ServeHTTP (quiet 8%N)
       (PUT_tasks_id oid1_hex (inr (mkTask NilObjectID "New title!" true))) wd).1 in
  (ServeHTTP (quiet 9%N) (GET_tasks_id oid1_hex) updated).2
  = mkWriter 200 true
      [PJSON [("task",
               ATask (mkTask oid1 "New title!"
                        (true || Completed (Task_of oid1 {["title" := VString "Buy milk"]}))))]].
Proof.
  apply (update_then_get (quiet 8%N) (quiet 9%N)
           (ServeHTTP (quiet oid1) (POST_tasks (inr buy_milk)) emptyWorld).1
           oid1_hex oid1 (mkTask NilObjectID "New title!" true)
           {["title" := VString "Buy milk"]}).
  - apply reachable_serve; [apply reachable_empty | done].
  - reflexivity.
  - reflexivity.
  - reflexivity.
  - cbn. lia.
  - reflexivity.
  - left. reflexivity.
Defined.

(** The collection after an update request: as before, or the addressed
    record overlaid with the fields of the body. *)
Lemma update_collection_cases e id b wd :
  collection (ServeHTTP e (PUT_tasks_id id b) wd).1 = collection wd
  ∨ ∃ oid task d,
      ObjectIDFromHex id = inr oid ∧ b = inr task
      ∧ (5 ≤ String.length (Title task))%nat
      ∧ collection wd !! oid = Some d
      ∧ (ID task = NilObjectID ∨ ID task = oid)
      ∧ collection (ServeHTTP e (PUT_tasks_id id b) wd).1
        = <[oid := Task_fields task ∪ d]> (collection wd).
Proof.
  destruct (decide (id = "")) as [->|Hne]; [by left|].
  rewrite serve_update by done. unfold UpdateTask. rewrite Param_id.
  destruct (ObjectIDFromHex id) as [err|oid] eqn:Hid; [by left|].
  unfold bind, BindJSON, ret. cbn [Bound].
  destruct b as [err|task]; [by left|].
  destruct (decide (Title task = "")); [by left|].
  destruct (decide (String.length (Title task) < 5)%nat); [by left|].
  unfold driver, UpdateOne. cbn [tasks calls writer].
  destruct (fault e); [by left|].
  destruct (collection wd !! oid) as [d|] eqn:Hd; [|by left].
  case_decide as Hguard; [|by left].
  rewrite decide_False by done. right. exists oid, task, d.
  rewrite Task_MarshalBSON_fields. split_and!; try done; [lia|].
  by apply set_keeps_id_iff.
Qed.

(** X9.  An update request never adds or removes a record, and changes no
    record other than the one its id addresses, whatever its id and body. *)
Theorem update_touches_only_the_addressed_record e id b wd :
  dom (collection (ServeHTTP e (PUT_tasks_id id b) wd).1) = dom (collection wd)
  ∧ ∀ k, ObjectIDFromHex id ≠ inr k →
         collection (ServeHTTP e (PUT_tasks_id id b) wd).1 !! k = collection wd !! k.
Proof.
  split; [apply update_keeps_keys|]. intros k Hk.
  destruct (update_collection_cases e id b wd)
    as [-> | (oid & task & d & Hid & _ & _ & _ & _ & ->)]; [done|].
  apply lookup_insert_ne. intros <-. by apply Hk.
Qed.

Lemma update_touches_only_the_addressed_record_witness :
  let wd := mkWorld {[oid1 := Task_fields buy_milk; 7%N := Task_fields buy_milk]} [] in
  let r := ServeHTTP (quiet 8%N)
             (PUT_tasks_id oid1_hex (inr (mkTask NilObjectID "New title!" true))) wd in
  collection r.1 !! 7%N = collection wd !! 7%N.
Proof.
  cbn zeta.
  apply (update_touches_only_the_addressed_record (quiet 8%N) oid1_hex
           (inr (mkTask NilObjectID "New title!" true))
           (mkWorld {[oid1 := Task_fields buy_milk; 7%N := Task_fields buy_milk]} [])).
  vm_compute. discriminate.
Defined.

Lemma overlay_twice t (d : M) : Task_fields t ∪ (Task_fields t ∪ d) = Task_fields t ∪ d.
Proof. by rewrite (assoc_L (∪)), (idemp_L (∪)). Qed.

(** X10.  Update is idempotent: when the first of two identical update
    requests reached a store that answers, the second one leaves the
    collection as the first left it. *)
Theorem update_twice_is_update_once e1 e2 id b wd :
  fault e1 = None →
  let once := (ServeHTTP e1 (PUT_tasks_id id b) wd).1 in
  collection (ServeHTTP e2 (PUT_tasks_id id b) once).1 = collection once.
Proof.
  intros Hf1. cbn zeta.
  destruct (update_collection_cases e2 id b (ServeHTTP e1 (PUT_tasks_id id b) wd).1)
    as [-> | (oid & task & d1 & Hid & -> & Hlen & Hd1 & Hbody & ->)]; [done|].
  assert (is_Some (collection wd !! oid)) as [d0 Hd0].
  { apply elem_of_dom. rewrite <- (update_keeps_keys e1 wd id (inr task)).
    apply elem_of_dom. eauto. }
  rewrite (update_existing e1 wd id oid task d0) in Hd1 |- * by done.
  cbn in Hd1 |- *. rewrite lookup_insert_eq in Hd1. injection Hd1 as <-.
  by rewrite overlay_twice, insert_insert_eq.
Qed.

Lemma update_twice_is_update_once_witness :
  let wd := mkWorld {[oid1 := Task_fields buy_milk]} [] in
  let req := PUT_tasks_id oid1_hex (inr (mkTask NilObjectID "New title!" true)) in
  let once := (ServeHTTP (quiet 8%N) req wd).1 in
  collection (ServeHTTP (quiet 9%N) req once).1 = collection once.
Proof.
  apply (update_twice_is_update_once (quiet 8%N) (quiet 9%N) oid1_hex
           (inr (mkTask NilObjectID "New title!" true))
           (mkWorld {[oid1 := Task_fields buy_milk]} [])).
  reflexivity.
Defined.

(** X11.  An update whose body names another id than the one in the path
    does not move or rewrite the record: the store refuses to change [_id],
    the request is answered 500 with the store's message, and the collection
    is as before. *)
Theorem update_naming_another_id_is_refused e wd id oid task d :
  ObjectIDFromHex id = inr oid →
  fault e = None →
  (5 ≤ String.length (Title task))%nat →
  collection wd !! oid = Some d →
  ID task ≠ NilObjectID → ID task ≠ oid →
  (ServeHTTP e (PUT_tasks_id id (inr task)) wd).2
  = mkWriter 500 true [PJSON [("error", AString (Error ImmutableFieldError))]]
  ∧ collection (ServeHTTP e (PUT_tasks_id id (inr task)) wd).1 = collection wd.
Proof.
  intros Hid Hf Hlen Hd Hnz Hne.
  by rewrite (update_with_foreign_id e wd id oid task d).
Qed.

Lemma update_naming_another_id_is_refused_witness :
  let wd := mkWorld {[oid1 := Task_fields buy_milk]} [] in
  let req := PUT_tasks_id oid1_hex (inr (mkTask 7%N "New title!" false)) in
  (ServeHTTP (quiet 8%N) req wd).2
  = mkWriter 500 true [PJSON [("error", AString (Error ImmutableFieldError))]]
  ∧ collection (ServeHTTP (quiet 8%N) req wd).1 = collection wd.
Proof.
  apply (update_naming_another_id_is_refused (quiet 8%N)
           (mkWorld {[oid1 := Task_fields buy_milk]} []) oid1_hex oid1
           (mkTask 7%N "New title!" false) (Task_fields buy_milk)).
  - reflexivity.
  - reflexivity.
  - cbn. lia.
  - apply lookup_singleton_eq.
  - discriminate.
  - discriminate.
Defined.

(** ** Delete, continued *)

(** X12.  A delete request changes no record other than the one its id
    addresses; and when it is answered 200, the id was well-formed, the
    record was there, and the collection is the old one without it. *)
Theorem delete_removes_exactly_the_addressed_record e id wd :
  (∀ k, ObjectIDFromHex id ≠ inr k →
        collection (ServeHTTP e (DELETE_tasks_id id) wd).1 !! k = collection wd !! k)
  ∧ (Status (ServeHTTP e (DELETE_tasks_id id) wd).2 = 200 →
     ∃ oid, ObjectIDFromHex id = inr oid
            ∧ is_Some (collection wd !! oid)
            ∧ collection (ServeHTTP e (DELETE_tasks_id id) wd).1
              = delete oid (collection wd)).
Proof.
  destruct (decide (id = "")) as [->|Hne]; [split; [done|discriminate]|].
  rewrite serve_delete by done.
  destruct (ObjectIDFromHex id) as [err|oid] eqn:Hid.
  { unfold DeleteTask. rewrite Param_id, Hid. split; [done|discriminate]. }
  rewrite (DeleteTask_run _ _ oid) by done. cbn [tasks calls writer]. cbn zeta.
  unfold DeleteOne. destruct (fault e); [split; [done|discriminate]|].
  destruct (collection wd !! oid) as [d|] eqn:Hd; cbn.
  - split.
    + intros k Hk. apply lookup_delete_ne. intros <-. by apply Hk.
    + intros _. exists oid. eauto.
  - split; [done|discriminate].
Qed.

Lemma delete_removes_exactly_the_addressed_record_witness :
  let wd := mkWorld {[oid1 := Task_fields buy_milk; 7%N := Task_fields buy_milk]} [] in
  let r := ServeHTTP (quiet 8%N) (DELETE_tasks_id oid1_hex) wd in
  ∃ oid, ObjectIDFromHex oid1_hex = inr oid
         ∧ is_Some (collection wd !! oid)
         ∧ collection r.1 = delete oid (collection wd).
Proof.
  cbn zeta.
  apply (delete_removes_exactly_the_addressed_record (quiet 8%N) oid1_hex
           (mkWorld {[oid1 := Task_fields buy_milk; 7%N := Task_fields buy_milk]} [])).
  reflexivity.
Defined.

(** ** Create, continued *)

(** X13.  A create request never changes or removes a record that is
    already stored, whatever its body; the collection grows by exactly one
    record when the answer is 201, and is unchanged otherwise. *)
Theorem create_keeps_stored_records e b wd :
  (∀ k d, collection wd !! k = Some d →
          collection (ServeHTTP e (POST_tasks b) wd).1 !! k = Some d)
  ∧ size (collection (ServeHTTP e (POST_tasks b) wd).1)
    = (size (collection wd)
       + if decide (Status (ServeHTTP e (POST_tasks b) wd).2 = 201%Z) then 1 else 0)%nat.
Proof.
  rewrite serve_create. destruct b as [err|task].
  { unfold CreateTask, bind. rewrite (BindJSON_error _ err) by done.
    unfold throwError, JSON, onWriter. cbn [writer tasks calls snd].
    rewrite decide_False by done. rewrite Render_after_abort by done. cbn.
    split; [done|]. rewrite decide_False by done. lia. }
  destruct (decide (String.length (Title task) < 5)%nat) as [Hlt|Hge].
  { rewrite CreateTask_short_title by done. cbn. split; [done|]. rewrite decide_False by done. lia. }
  rewrite CreateTask_validated by lia. cbn zeta. cbn [tasks calls writer].
  destruct (InsertOne e _ (collection wd)) as [err|[id coll]] eqn:Hins.
  { cbn. split; [done|]. rewrite decide_False by done. lia. }
  apply InsertOne_inv in Hins as (Hfree & -> & _). cbn. split.
  - intros k d Hk. rewrite lookup_insert_ne; [done|]. intros ->. congruence.
  - rewrite map_size_insert_None by done. rewrite decide_True by done. lia.
Qed.

(** X14.  A create request whose body carries a non-zero id that is not yet
    stored gets that id: the record is stored under the id of the body, not
    under a generated one, and the 201 response carries it. *)
Theorem create_with_body_id_uses_it e wd task :
  (5 ≤ String.length (Title task))%nat →
  fault e = None →
  ID task ≠ NilObjectID →
  collection wd !! ID task = None →
  let r := ServeHTTP e (POST_tasks (inr task)) wd in
  r.2 = mkWriter 201 true
          [PJSON [("message", AString "Task created");
                  ("task", ATask (mkTask (ID task) (Title task) false))]]
  ∧ collection r.1 = <[ID task := {["title" := VString (Title task)]}]> (collection wd).
Proof.
  intros Hlen Hf Hnz Hfree. cbn zeta.
  assert (InsertedID e task = ID task) as Hins.
  { unfold InsertedID. apply IsZero_false in Hnz. by rewrite Hnz. }
  rewrite create_accepted; [|done|].
  - rewrite Hins. done.
  - split; [done|]. by rewrite Hins.
Qed.

Lemma create_with_body_id_uses_it_witness :
  let r := ServeHTTP (quiet oid1) (POST_tasks (inr (mkTask 7%N "Buy milk" true)))
             emptyWorld in
  r.2 = mkWriter 201 true
          [PJSON [("message", AString "Task created");
                  ("task", ATask (mkTask 7%N "Buy milk" false))]]
  ∧ collection r.1 = <[7%N := {["title" := VString "Buy milk"]}]> (collection emptyWorld).
Proof.
  apply (create_with_body_id_uses_it (quiet oid1) emptyWorld (mkTask 7%N "Buy milk" true)).
  - cbn. lia.
  - reflexivity.
  - discriminate.
  - reflexivity.
Defined.

(** X15.  A create request whose body carries the id of a stored record is
    answered 500 with the store's duplicate-key error; the stored record is
    not overwritten. *)
Theorem create_with_stored_id_is_500 e wd task d :
  (5 ≤ String.length (Title task))%nat →
  fault e = None →
  ID task ≠ NilObjectID →
  collection wd !! ID task = Some d →
  let r := ServeHTTP e (POST_tasks (inr task)) wd in
  r.2 = mkWriter 500 true [PJSON [("error", AString (Error DuplicateKeyError))]]
  ∧ collection r.1 = collection wd.
Proof.
  intros Hlen Hf Hnz Hd. cbn zeta.
  rewrite (create_store_error e wd task DuplicateKeyError); [done..|].
  unfold InsertOne. rewrite Hf, Task_MarshalBSON_id. cbn [ID setCompleted].
  apply IsZero_false in Hnz. rewrite Hnz. by rewrite Hd.
Qed.

Lemma create_with_stored_id_is_500_witness :
  let wd := mkWorld {[oid1 := Task_fields buy_milk]} [] in
  let r := ServeHTTP (quiet 8%N) (POST_tasks (inr (mkTask oid1 "Other task" false))) wd in
  r.2 = mkWriter 500 true [PJSON [("error", AString (Error DuplicateKeyError))]]
  ∧ collection r.1 = collection wd.
Proof.
  apply (create_with_stored_id_is_500 (quiet 8%N)
           (mkWorld {[oid1 := Task_fields buy_milk]} [])
           (mkTask oid1 "Other task" false) (Task_fields buy_milk)).
  - cbn. lia.
  - reflexivity.
  - discriminate.
  - apply lookup_singleton_eq.
Defined.

Lemma create_keeps_stored_records_witness :
  let wd := mkWorld {[oid1 := Task_fields buy_milk]} [] in
  collection (ServeHTTP (quiet oid1) (POST_tasks (inr (mkTask oid1 "Other task" true))) wd).1
    !! oid1 = Some (Task_fields buy_milk).
Proof.
  cbn zeta.
  apply (create_keeps_stored_records (quiet oid1)
           (inr (mkTask oid1 "Other task" true))
           (mkWorld {[oid1 := Task_fields buy_milk]} [])).
  apply lookup_singleton_eq.
Defined.

Lemma malformed_id_is_400_witness :
  ServeHTTP (quiet oid1) (PUT_tasks_id "65a1b2c3d4e5f60718293a4g" (inr buy_milk)) emptyWorld
  = (emptyWorld,
     mkWriter 400 true
       [PJSON [("error", AString "encoding/hex: invalid byte: U+0067 'g'")]]).
Proof.
  apply (malformed_id_is_400 (quiet oid1) emptyWorld "65a1b2c3d4e5f60718293a4g"
           (InvalidByteError "g") (inr buy_milk)).
  - discriminate.
  - reflexivity.
  - right. left. reflexivity.
Defined.

(** ** Start-up, continued *)

Lemma not_serving (text : string) : ¬ serves [EvGinDefault; EvPrint text].
Proof.
  intros [Hroutes | [addr Hrun]].
  - apply elem_of_cons in Hroutes as [?|Hroutes]; [done|].
    apply elem_of_cons in Hroutes as [?|Hroutes]; [done|].
    by apply elem_of_nil in Hroutes.
  - apply elem_of_cons in Hrun as [?|Hrun]; [done|].
    apply elem_of_cons in Hrun as [?|Hrun]; [done|].
    by apply elem_of_nil in Hrun.
Qed.

(** X17.  [main] serves exactly when the database was set up: [MONGO_URI] is
    set and not empty, and both [mongo.Connect] and [client.Ping] succeed on
    it.  In every other case [main] prints the error of [SetUpDatabase] and
    returns, having registered no route and started no server. *)
Theorem main_serves_iff_database_is_up (environ : gmap string string) net :
  let uri := os.Getenv environ "MONGO_URI" in
  (serves (main environ net)
   ↔ uri ≠ "" ∧ Connect net uri = None ∧ Ping net uri = None)
  ∧ (¬ serves (main environ net) →
     ∃ err, (SetUpDatabase environ net).1 = inl err
            ∧ main environ net = [EvGinDefault; EvPrint (Error err)]).
Proof.
  cbn zeta. unfold main, SetUpDatabase.
  destruct (decide (os.Getenv environ "MONGO_URI" = "")) as [Huri|Huri].
  { split; [|eauto]. split; [by intros ?%not_serving | by intros [? _]]. }
  destruct (Connect net _) as [err|] eqn:Hc.
  { split; [|eauto]. split; [by intros ?%not_serving | by intros (_ & ? & _)]. }
  destruct (Ping net _) as [err|] eqn:Hp.
  { split; [|eauto]. split; [by intros ?%not_serving | by intros (_ & _ & ?)]. }
  assert (serves ([EvGinDefault] ++ [EvLog "Connected to MongoDB!"] ++
                  [EvSetupRoutes; EvGoRun port; EvAwaitInterrupt; EvDisconnect] ++
                  match Disconnect net with
                  | Some err => [EvLog ("mongo disconnect error: " +:+ Error err)]
                  | None => []
                  end ++ [EvLog "shutting down"])) as Hserves.
  { left. cbn. do 2 apply list_elem_of_further. apply list_elem_of_here. }
  split; [by split|]. intros Hno. by destruct Hno.
Qed.

Lemma main_serves_iff_database_is_up_witness :
  let environ : gmap string string := {["MONGO_URI" := "mongodb://db:27017"]} in
  let net := mkNetwork (λ _, None) (λ _, Some (errorString "no reachable servers")) None in
  ∃ err, (SetUpDatabase environ net).1 = inl err
         ∧ main environ net = [EvGinDefault; EvPrint (Error err)].
Proof.
  cbn zeta.
  apply (main_serves_iff_database_is_up {["MONGO_URI" := "mongodb://db:27017"]}
           (mkNetwork (λ _, None) (λ _, Some (errorString "no reachable servers")) None)).
  apply (not_serving "no reachable servers").
Defined.

(* ===================================================================== *)
(** * The earlier variant *)
(* ===================================================================== *)

Lemma legacy_MarshalBSON_id t :
  legacy.Task_MarshalBSON t !! "_id"
  = if IsZero (ID t) then None else Some (VObjectID (ID t)).
Proof.
  unfold legacy.Task_MarshalBSON, omitempty. by destruct (IsZero (ID t)).
Qed.

Lemma legacy_MarshalBSON_fields t :
  delete "_id" (legacy.Task_MarshalBSON t) = legacy.Task_fields t.
Proof.
  unfold legacy.Task_MarshalBSON, omitempty. fold (legacy.Task_fields t).
  destruct (IsZero (ID t)).
  - by apply delete_id.
  - rewrite delete_insert_eq. by apply delete_id.
Qed.

Lemma legacy_InsertOne_accepted e t coll :
  accepts_insert e t coll →
  InsertOne e (legacy.Task_MarshalBSON t) coll
  = inr (InsertedID e t, <[InsertedID e t := legacy.Task_fields t]> coll).
Proof.
  intros [Hf Hfree]. unfold InsertOne. rewrite Hf, legacy_MarshalBSON_id.
  unfold InsertedID in *. destruct (IsZero (ID t)); rewrite Hfree;
    by rewrite legacy_MarshalBSON_fields.
Qed.

Lemma legacy_serve_create leftover e b wd :
  legacy.ServeHTTP leftover e (POST_tasks b) wd
  = let s := (legacy.CreateTask leftover e (mkContext ∅ b)
                (mkState (collection wd) (driverLog wd) newWriter)).2 in
    (mkWorld (tasks s) (calls s), writer s).
Proof. reflexivity. Qed.

Lemma legacy_serve_update leftover e id b wd :
  id ≠ "" →
  legacy.ServeHTTP leftover e (PUT_tasks_id id b) wd
  = let s := (legacy.UpdateTask e (mkContext {["id" := id]} b)
                (mkState (collection wd) (driverLog wd) newWriter)).2 in
    (mkWorld (tasks s) (calls s), writer s).
Proof.
  intros Hid. unfold legacy.ServeHTTP, PUT_tasks_id, legacy.SetupRoutes.
  cbn [method path]. rewrite decide_True by done. reflexivity.
Qed.

Lemma legacy_serve_delete leftover e id wd :
  id ≠ "" →
  legacy.ServeHTTP leftover e (DELETE_tasks_id id) wd
  = let s := (legacy.DeleteTask e (mkContext {["id" := id]} (inr zeroTask))
                (mkState (collection wd) (driverLog wd) newWriter)).2 in
    (mkWorld (tasks s) (calls s), writer s).
Proof.
  intros Hid. unfold legacy.ServeHTTP, DELETE_tasks_id, legacy.SetupRoutes.
  cbn [method path]. rewrite decide_True by done. reflexivity.
Qed.

(** X18.  The earlier create validates nothing: every decoded body the store
    accepts is stored as it is, with any title (the empty one too) and with
    the submitted [completed], and is answered 200 with a message and no
    task. *)
Theorem legacy_create_stores_any_task leftover e wd task :
  accepts_insert e task (collection wd) →
  legacy.ServeHTTP leftover e (POST_tasks (inr task)) wd
  = (mkWorld (<[InsertedID e task :=
                  <["title" := VString (Title task)]>
                    {["completed" := VBool (Completed task)]}]> (collection wd))
       (driverLog wd ++ [CallInsertOne (legacy.Task_MarshalBSON task)]),
     mkWriter 200 true [PJSON [("message", AString "Task created")]]).
Proof.
  intros Hacc. rewrite legacy_serve_create.
  unfold legacy.CreateTask, bind, BindJSON, ret, driver. cbn [Bound tasks calls writer].
  rewrite (legacy_InsertOne_accepted e task) by done. reflexivity.
Qed.

Lemma legacy_create_stores_any_task_witness :
  legacy.ServeHTTP zeroTask (quiet oid1) (POST_tasks (inr (mkTask NilObjectID "" true)))
    emptyWorld
  = (mkWorld (<[InsertedID (quiet oid1) (mkTask NilObjectID "" true) :=
                  <["title" := VString ""]> {["completed" := VBool true]}]>
                (collection emptyWorld))
       (driverLog emptyWorld
        ++ [CallInsertOne (legacy.Task_MarshalBSON (mkTask NilObjectID "" true))]),
     mkWriter 200 true [PJSON [("message", AString "Task created")]]).
Proof.
  apply (legacy_create_stores_any_task zeroTask (quiet oid1) emptyWorld
           (mkTask NilObjectID "" true)).
  split; reflexivity.
Defined.

(** X19.  The earlier create drops the error of [BindJSON]: a body that does
    not decode still leads to an insert, of whatever the decoder left in the
    task, and the client is sent status 400 (committed by the failed bind)
    with the body of a success, "Task created". *)
Theorem legacy_create_inserts_after_bind_error leftover e wd err :
  accepts_insert e leftover (collection wd) →
  legacy.ServeHTTP leftover e (POST_tasks (inl err)) wd
  = (mkWorld (<[InsertedID e leftover := legacy.Task_fields leftover]> (collection wd))
       (driverLog wd ++ [CallInsertOne (legacy.Task_MarshalBSON leftover)]),
     mkWriter 400 true [PJSON [("message", AString "Task created")]]).
Proof.
  intros Hacc. rewrite legacy_serve_create. unfold legacy.CreateTask, bind.
  rewrite (BindJSON_error _ err) by done. unfold driver. cbn [tasks calls writer].
  rewrite (legacy_InsertOne_accepted e leftover) by done.
  unfold JSON, onWriter. cbn [tasks calls writer snd].
  by rewrite Render_after_abort.
Qed.

Lemma legacy_create_inserts_after_bind_error_witness :
  legacy.ServeHTTP zeroTask (quiet oid1) (POST_tasks (inl (errorString "unexpected EOF")))
    emptyWorld
  = (mkWorld (<[InsertedID (quiet oid1) zeroTask := legacy.Task_fields zeroTask]>
                (collection emptyWorld))
       (driverLog emptyWorld ++ [CallInsertOne (legacy.Task_MarshalBSON zeroTask)]),
     mkWriter 400 true [PJSON [("message", AString "Task created")]]).
Proof.
  apply (legacy_create_inserts_after_bind_error zeroTask (quiet oid1) emptyWorld
           (errorString "unexpected EOF")).
  split; reflexivity.
Defined.

(** X20.  The earlier update and delete do not look at the match count: for
    a well-formed id that matches no record, the store answering, both are
    answered 200 and the collection is unchanged. *)
Theorem legacy_missing_record_is_200 leftover e wd id oid task :
  ObjectIDFromHex id = inr oid →
  fault e = None →
  collection wd !! oid = None →
  legacy.ServeHTTP leftover e (PUT_tasks_id id (inr task)) wd
  = (mkWorld (collection wd)
       (driverLog wd ++ [CallUpdateOne oid (legacy.Task_MarshalBSON task)]),
     mkWriter 200 true [PJSON [("message", AString "Task updated")]])
  ∧ legacy.ServeHTTP leftover e (DELETE_tasks_id id) wd
    = (mkWorld (collection wd) (driverLog wd ++ [CallDeleteOne oid]),
       mkWriter 200 true [PJSON [("message", AString "Task deleted")]]).
Proof.
  intros Hid Hf Hd. split.
  - rewrite legacy_serve_update by eauto using ObjectIDFromHex_nonempty.
    unfold legacy.UpdateTask. rewrite Param_id, Hid.
    unfold bind, BindJSON, ret, driver, UpdateOne. cbn [Bound tasks calls writer].
    rewrite Hf, Hd. reflexivity.
  - rewrite legacy_serve_delete by eauto using ObjectIDFromHex_nonempty.
    unfold legacy.DeleteTask. rewrite Param_id, Hid.
    unfold bind, driver, DeleteOne. cbn [tasks calls writer].
    rewrite Hf, Hd. reflexivity.
Qed.

Lemma legacy_missing_record_is_200_witness :
  legacy.ServeHTTP zeroTask (quiet oid1) (PUT_tasks_id nil_hex (inr buy_milk)) emptyWorld
  = (mkWorld (collection emptyWorld)
       (driverLog emptyWorld
        ++ [CallUpdateOne NilObjectID (legacy.Task_MarshalBSON buy_milk)]),
     mkWriter 200 true [PJSON [("message", AString "Task updated")]])
  ∧ legacy.ServeHTTP zeroTask (quiet oid1) (DELETE_tasks_id nil_hex) emptyWorld
    = (mkWorld (collection emptyWorld) (driverLog emptyWorld ++ [CallDeleteOne NilObjectID]),
       mkWriter 200 true [PJSON [("message", AString "Task deleted")]]).
Proof.
  apply (legacy_missing_record_is_200 zeroTask (quiet oid1) emptyWorld nil_hex
           NilObjectID buy_milk).
  - reflexivity.
  - reflexivity.
  - reflexivity.
Defined.

(** X21.  The earlier update writes both fields of the body over the matched
    record without validating them: the stored title becomes the body's
    title (any string) and the stored [completed] becomes the body's value,
    [false] included. *)
Theorem legacy_update_overwrites_both_fields leftover e wd id oid task d :
  ObjectIDFromHex id = inr oid →
  fault e = None →
  collection wd !! oid = Some d →
  ID task = NilObjectID ∨ ID task = oid →
  let r := legacy.ServeHTTP leftover e (PUT_tasks_id id (inr task)) wd in
  r.2 = mkWriter 200 true [PJSON [("message", AString "Task updated")]]
  ∧ ∃ d', collection r.1 !! oid = Some d'
          ∧ d' !! "title" = Some (VString (Title task))
          ∧ d' !! "completed" = Some (VBool (Completed task)).
Proof.
  intros Hid Hf Hd Hbody. cbn zeta.
  rewrite legacy_serve_update by eauto using ObjectIDFromHex_nonempty.
  unfold legacy.UpdateTask. rewrite Param_id, Hid.
  unfold bind, BindJSON, ret, driver, UpdateOne. cbn [Bound tasks calls writer].
  rewrite Hf, Hd. rewrite decide_True.
  - cbn. split; [done|]. eexists. split; [apply lookup_insert_eq|].
    rewrite legacy_MarshalBSON_fields. unfold legacy.Task_fields. split.
    + apply lookup_union_Some_l. by rewrite lookup_insert_eq.
    + apply lookup_union_Some_l. rewrite lookup_insert_ne by done.
      by rewrite lookup_insert_eq.
  - rewrite legacy_MarshalBSON_id. destruct (IsZero (ID task)) eqn:Hz; [by left|].
    right. destruct Hbody as [Hnil | ->]; [|done].
    apply IsZero_false in Hz. done.
Qed.

Lemma legacy_update_overwrites_both_fields_witness :
  let wd := mkWorld {[oid1 := legacy.Task_fields (mkTask NilObjectID "Buy milk" true)]} [] in
  let r := legacy.ServeHTTP zeroTask (quiet 8%N)
             (PUT_tasks_id oid1_hex (inr (mkTask NilObjectID "" false))) wd in
  r.2 = mkWriter 200 true [PJSON [("message", AString "Task updated")]]
  ∧ ∃ d', collection r.1 !! oid1 = Some d'
          ∧ d' !! "title" = Some (VString "")
          ∧ d' !! "completed" = Some (VBool false).
Proof.
  apply (legacy_update_overwrites_both_fields zeroTask (quiet 8%N)
           (mkWorld {[oid1 := legacy.Task_fields (mkTask NilObjectID "Buy milk" true)]} [])
           oid1_hex oid1 (mkTask NilObjectID "" false)
           (legacy.Task_fields (mkTask NilObjectID "Buy milk" true))).
  - reflexivity.
  - reflexivity.
  - apply lookup_singleton_eq.
  - left. reflexivity.
Defined.




(* ===================================================================== *)
(** * Further checks on concrete inputs *)
(* ===================================================================== *)

(** The message for a byte outside ASCII: printable Latin-1 is quoted in its
    two-byte UTF-8 form, the rest is not quoted. *)
Example Error_invalid_byte_latin1 :
  Error (InvalidByteError (ascii_of_N 195))
  = "encoding/hex: invalid byte: U+00C3 '"
      +:+ String (ascii_of_N 195) (String (ascii_of_N 131) "") +:+ "'".
Proof. reflexivity. Qed.

Example Error_invalid_byte_unprintable :
  Error (InvalidByteError (ascii_of_N 128)) = "encoding/hex: invalid byte: U+0080"
  ∧ Error (InvalidByteError (ascii_of_N 173)) = "encoding/hex: invalid byte: U+00AD"
  ∧ Error (InvalidByteError (ascii_of_N 10)) = "encoding/hex: invalid byte: U+000A".
Proof. split_and!; reflexivity. Qed.

(** An id of 24 bytes that starts with a two-byte character. *)
Example bad_id_non_ascii :
  (ServeHTTP (quiet oid1)
     (GET_tasks_id (e_acute +:+ "0000000000000000000000")) emptyWorld).2
  = mkWriter 400 true
      [PJSON [("error",
               AString ("encoding/hex: invalid byte: U+00C3 '"
                        +:+ String (ascii_of_N 195) (String (ascii_of_N 131) "")
                        +:+ "'"))]].
Proof. vm_compute. reflexivity. Qed.

(** Trailing slashes: redirected when a route is one slash away, 404
    otherwise; the world is untouched. *)
Example trailing_slash_redirects :
  ServeHTTP (quiet oid1) (mkRequest GET ["tasks"; ""] (inr zeroTask)) emptyWorld
  = (emptyWorld, mkWriter 301 true [PRedirect ["tasks"]])
  ∧ ServeHTTP (quiet oid1) (mkRequest POST ["tasks"; ""] (inr buy_milk)) emptyWorld
    = (emptyWorld, mkWriter 307 true [])
  ∧ ServeHTTP (quiet oid1) (mkRequest DELETE ["tasks"; oid1_hex; ""] (inr zeroTask))
      emptyWorld
    = (emptyWorld, mkWriter 307 true [])
  ∧ ServeHTTP (quiet oid1) (mkRequest PUT ["tasks"; ""] (inr buy_milk)) emptyWorld
    = (emptyWorld, mkWriter 404 true [PString "404 page not found"])
  ∧ ServeHTTP (quiet oid1) (mkRequest POST [] (inr buy_milk)) emptyWorld
    = (emptyWorld, mkWriter 404 true [PString "404 page not found"]).
Proof. split_and!; reflexivity. Qed.
